(** * LoRa rain gauge firmware (PIC18F46K22, version 8)

    A shallow embedding of [main.c]: the special function registers the
    firmware touches, its file-scope variables, and each of its functions
    as a state transformer.  Calls into the transceiver, serial and delay
    collaborators are recorded in a chronological trace; values that come
    from outside the program (transceiver status reads, analogue
    conversions, the checksum routine) are parameters. *)

From Stdlib Require Import ZArith List Lia Bool String.
From stdpp Require Import base numbers functions list.
Import ListNotations.

Local Open Scope Z_scope.

(** ** Fixed-width integers *)

Definition wrap8 (z : Z) : Z := z mod 256.
Definition wrap16 (z : Z) : Z := z mod 65536.
Definition wrap32 (z : Z) : Z := z mod 4294967296.

(** ** Constants of main.c *)

Definition DEBUG : bool := false.
(** [TX_FREQ] is the literal 866.5 (MHz) in the source; it is only handed
    to the transceiver driver and is carried here in kHz. *)
Definition TX_FREQ_kHz : Z := 866500.
Definition SYNC_WORD : Z := 0x55.
Definition BATT_UVLO : Z := 2000.
(** The macro is the token sequence [BATT_UVLO/4]; its only use is
    [batt>BATT_UVLO/4], where the division binds tighter than [>]. *)
Definition BATT_UVLO_ATOD : Z := BATT_UVLO / 4.
Definition DATA_PACKET_LENGTH : Z := 50.
Definition ID0 : Z := 0x00.
Definition ID1 : Z := 0x01.
Definition SOFTWARE_VERSION : Z := 0x08.

Definition address : list Z := [0xE6; 0xBA; 0x08; 0xFB; 0x3A; 0x4F; 0x5E; 0xCE].

(** ** Special function registers

    Registers that the source assigns as a whole ([TRISA=0], [PMD1=0xFF])
    are bytes; a single pin of such a register is the bit whose index is
    the digit in its name ([TRISBbits.RB1] is bit 1 of [TRISB], as the
    source's [TRISB=0x02; //Set all outputs except RB1] also says).
    Registers that the source only reaches through named bit-fields are
    kept field by field, under the field's name. *)

Inductive sfr : Set :=
  | TRISA | TRISB | TRISC | TRISD | TRISE
  | LATA | LATB | LATC | LATD | LATE
  | PMD1 | PMD2
  | ADRESH | ADRESL
  | ADCON0bits_ADON | ADCON0bits_GO_NOT_DONE | ADCON0bits_CHS
  | ADCON1bits_PVCFG | ADCON1bits_NVCFG
  | ADCON2bits_ACQT | ADCON2bits_ADCS | ADCON2bits_ADFM
  | VREFCON0bits_FVRS | VREFCON0bits_FVREN
  | INTCONbits_GIE | INTCON2bits_INTEDG1
  | INTCON3bits_INT1E | INTCON3bits_INT1F
  | PMD0bits_UART2MD | PMD0bits_UART1MD
  | PMD0bits_TMR6MD | PMD0bits_TMR5MD | PMD0bits_TMR4MD
  | PMD0bits_TMR3MD | PMD0bits_TMR2MD | PMD0bits_TMR1MD
  | PMD0bits_SPI2MD | PMD0bits_SPI1MD
  | ANSELAbits_ANSA0 | ANSELAbits_ANSA1 | ANSELAbits_ANSA2
  | ANSELBbits_ANSB1 | ANSELBbits_ANSB4
  | ANSELDbits_ANSD1
  | ANSELEbits_ANSE1 | ANSELEbits_ANSE2.

#[global] Instance sfr_eq_dec : EqDecision sfr.
Proof. solve_decision. Defined.

(** ** Observable actions *)

Inductive event : Set :=
  | printf (msg : string)
  | USART2_Start
  | delay_ms (n : Z)
  | RED_LED_write (v : Z)
  | LoRaStart (freq_kHz sync : Z)
  | LoRaClearIRQFlags
  | LoRaTXData (data : list Z) (len : Z)
  | LoRaGetIRQFlags (ret : Z)
  | LoRaSleepMode
  | SLEEP.

(** Whether an action addresses the transceiver. *)
Definition is_LoRa (e : event) : bool :=
  match e with
  | LoRaStart _ _ | LoRaClearIRQFlags | LoRaTXData _ _
  | LoRaGetIRQFlags _ | LoRaSleepMode => true
  | _ => false
  end.

(** ** Program state *)

Record state : Type := mkState {
  regs : sfr -> Z;          (* special function registers *)
  adc_busy : nat;           (* converter: polls left before it finishes *)
  tips : Z;                 (* volatile uint32_t *)
  messageCount : Z;         (* uint32_t *)
  txData : list Z;          (* uint8_t [DATA_PACKET_LENGTH] *)
  batt : Z;                 (* uint16_t *)
  temp : Z;                 (* uint16_t *)
  trace : list event        (* oldest first *)
}.

Definition set_regs (f : (sfr -> Z) -> sfr -> Z) (s : state) : state :=
  mkState (f (regs s)) (adc_busy s) (tips s) (messageCount s) (txData s)
          (batt s) (temp s) (trace s).
Definition set_adc_busy (n : nat) (s : state) : state :=
  mkState (regs s) n (tips s) (messageCount s) (txData s)
          (batt s) (temp s) (trace s).
Definition set_tips (v : Z) (s : state) : state :=
  mkState (regs s) (adc_busy s) v (messageCount s) (txData s)
          (batt s) (temp s) (trace s).
Definition set_messageCount (v : Z) (s : state) : state :=
  mkState (regs s) (adc_busy s) (tips s) v (txData s)
          (batt s) (temp s) (trace s).
Definition set_txData (f : list Z -> list Z) (s : state) : state :=
  mkState (regs s) (adc_busy s) (tips s) (messageCount s) (f (txData s))
          (batt s) (temp s) (trace s).
Definition set_batt (v : Z) (s : state) : state :=
  mkState (regs s) (adc_busy s) (tips s) (messageCount s) (txData s)
          v (temp s) (trace s).
Definition set_temp (v : Z) (s : state) : state :=
  mkState (regs s) (adc_busy s) (tips s) (messageCount s) (txData s)
          (batt s) v (trace s).
Definition emit (e : event) (s : state) : state :=
  mkState (regs s) (adc_busy s) (tips s) (messageCount s) (txData s)
          (batt s) (temp s) (trace s ++ [e]).

(** [r = v] for a register or bit-field [r]. *)
Definition wr (r : sfr) (v : Z) : state -> state :=
  set_regs (fun f => <[r := v]> f).

(** [Rbits.Rn = v] for pin [n] of a byte register [r]. *)
Definition wr_bit (r : sfr) (n : Z) (v : Z) : state -> state :=
  set_regs (fun f =>
    <[r := if v =? 0 then Z.clearbit (f r) n else Z.setbit (f r) n]> f).

(** [txData[i] = v], the value converted to [uint8_t]. *)
Definition wr_txData (i : nat) (v : Z) : state -> state :=
  set_txData (fun b => <[i := wrap8 v]> b).

(** [RED_LED] is [LATEbits.LATE2] (defines.h). *)
Definition RED_LED (v : Z) (s : state) : state :=
  emit (RED_LED_write v) (wr_bit LATE 2 v s).

Definition debug (msg : string) (s : state) : state :=
  if DEBUG then emit (printf msg) s else s.

(** The state at power-on: the initialisers of the file-scope variables;
    registers and buffer contents are whatever the device holds. *)
Definition power_on (r : sfr -> Z) (buf : list Z) : state :=
  mkState r 0%nat 0 0 buf 0 0 [].

(** A compound statement: the statements run in order. *)
Definition block (cs : list (state -> state)) (s : state) : state :=
  foldl (fun st c => c st) s cs.

(** ** The analogue-to-digital converter

    The converter works on its own once started.  It needs some number of
    polls of the flag before it finishes; when it does, it latches the
    10-bit conversion of the selected channel against the selected
    reference into [ADRESH:ADRESL] (right-justified when [ADFM] is 1,
    left-justified otherwise) and clears [GO_NOT_DONE]. *)

Section Firmware.

Variable adc_sample : Z -> Z -> Z.   (* reference select, channel *)
Variable adc_latency : nat.          (* polls that still read busy *)
Variable CRC16 : list Z -> Z -> Z.   (* CRC16.h: buffer, length *)

Definition adc_finish (s : state) : state :=
  let r := adc_sample (regs s ADCON1bits_PVCFG) (regs s ADCON0bits_CHS)
           mod 1024 in
  let hl := if regs s ADCON2bits_ADFM =? 1
            then (r / 256, r mod 256)
            else (r / 4, (r mod 4) * 64) in
  block [ wr ADRESH (fst hl);
          wr ADRESL (snd hl);
          wr ADCON0bits_GO_NOT_DONE 0;
          set_adc_busy 0 ] s.

Definition adc_tick (s : state) : state :=
  match adc_busy s with
  | O => s
  | S O => adc_finish s
  | S k => set_adc_busy k s
  end.

(** [ADCON0bits.GO_NOT_DONE=1]: the write starts the converter. *)
Definition start_conversion (s : state) : state :=
  set_adc_busy (S adc_latency) (wr ADCON0bits_GO_NOT_DONE 1 s).

(** [while(ADCON0bits.GO_NOT_DONE){}]: the converter advances between two
    reads of the flag; [fuel] bounds the number of reads that find it set. *)
Fixpoint busy_wait (fuel : nat) (s : state) : state :=
  if regs s ADCON0bits_GO_NOT_DONE =? 0 then s
  else match fuel with
       | O => s
       | S f => busy_wait f (adc_tick s)
       end.

Definition while_GO_NOT_DONE (s : state) : state :=
  busy_wait (adc_busy s) s.

(** ** The functions of main.c *)

Definition configureIO : state -> state :=
  block [ wr PMD0bits_UART2MD 0;
          wr PMD0bits_SPI2MD 0;
          wr_bit PMD2 0 0;               (* PMD2bits.ADCMD *)
          wr ANSELAbits_ANSA2 0;
          wr_bit TRISA 2 0;
          wr_bit LATA 2 0;
          wr ANSELEbits_ANSE1 0;
          wr ANSELEbits_ANSE2 0;
          wr ANSELBbits_ANSB4 0;
          wr_bit TRISE 1 0;
          wr_bit TRISE 2 0;
          wr ANSELBbits_ANSB1 0;
          wr_bit TRISB 1 1;
          emit USART2_Start;
          wr INTCON3bits_INT1E 1;
          wr INTCON3bits_INT1F 0;
          wr INTCONbits_GIE 1 ].

Definition disablePeripherals : state -> state :=
  block [ wr ADCON0bits_ADON 0;
          wr TRISA 0;
          wr TRISB 0x02;
          wr TRISC 0;
          wr TRISD 0;
          wr TRISE 0;
          wr LATA 0;
          wr LATB 0;
          wr LATC 0;
          wr LATD 0;
          wr LATE 0;
          wr_bit LATA 2 1;
          wr_bit TRISD 1 1;
          wr ANSELDbits_ANSD1 0;
          wr_bit LATD 3 1;
          wr PMD0bits_UART2MD 1;
          wr PMD0bits_UART1MD 1;
          wr PMD0bits_TMR6MD 1;
          wr PMD0bits_TMR5MD 1;
          wr PMD0bits_TMR4MD 1;
          wr PMD0bits_TMR3MD 1;
          wr PMD0bits_TMR2MD 1;
          wr PMD0bits_TMR1MD 1;
          wr PMD0bits_SPI2MD 1;
          wr PMD0bits_SPI1MD 1;
          wr PMD1 0xFF;
          wr PMD2 0xFF ].

Definition setupAtoD : state -> state :=
  block [ wr ANSELAbits_ANSA0 1;
          wr ANSELAbits_ANSA1 1;
          wr_bit TRISA 0 1;
          wr_bit TRISA 1 1;
          wr ADCON1bits_PVCFG 0;
          wr ADCON1bits_NVCFG 0;
          wr VREFCON0bits_FVRS 1;
          wr VREFCON0bits_FVREN 1;
          wr ADCON0bits_CHS 0;
          wr ADCON2bits_ACQT 2;
          wr ADCON2bits_ADCS 6;
          wr ADCON2bits_ADFM 1;
          wr ADCON0bits_ADON 1 ].

(** [uint16_t result = ADRESH * 256 + ADRESL; return result;] *)
Definition read_result (s : state) : Z :=
  wrap16 (regs s ADRESH * 256 + regs s ADRESL).

Definition readBattery (s : state) : Z * state :=
  let s := block [ wr ADCON1bits_PVCFG 2;
                   start_conversion;
                   while_GO_NOT_DONE ] s in
  (read_result s, s).

Definition readTemperature (s : state) : Z * state :=
  let s := block [ wr ADCON1bits_PVCFG 0;
                   wr ADCON0bits_CHS 1;
                   start_conversion;
                   while_GO_NOT_DONE ] s in
  (read_result s, s).

(** Lines 176-216 of [transmitData]: the payload bytes 0 to 47. *)
Definition fill_frame (s : state) : state :=
  block [ wr_txData 0 DATA_PACKET_LENGTH;
          wr_txData 1 ID0;
          wr_txData 2 ID1;
          (fun st => foldl (fun st' i => wr_txData (i + 3) (address !!! i) st')
                           st (seq 0 8));
          wr_txData 11 SOFTWARE_VERSION;
          (fun st => wr_txData 12 (Z.land (Z.shiftr (messageCount st) 24) 0xFF) st);
          (fun st => wr_txData 13 (Z.land (Z.shiftr (messageCount st) 16) 0xFF) st);
          (fun st => wr_txData 14 (Z.land (Z.shiftr (messageCount st) 8) 0xFF) st);
          (fun st => wr_txData 15 (Z.land (messageCount st) 0xFF) st);
          (fun st => wr_txData 16 (Z.land (Z.shiftr (batt st) 8) 0xFF) st);
          (fun st => wr_txData 17 (Z.land (batt st) 0xFF) st);
          (fun st => wr_txData 18 (Z.land (Z.shiftr (temp st) 8) 0xFF) st);
          (fun st => wr_txData 19 (Z.land (temp st) 0xFF) st);
          wr_txData 20 0;
          wr_txData 21 0;
          wr_txData 22 0;
          wr_txData 23 0;
          (fun st => wr_txData 24 (Z.land (Z.shiftr (tips st) 24) 0xFF) st);
          (fun st => wr_txData 25 (Z.land (Z.shiftr (tips st) 16) 0xFF) st);
          (fun st => wr_txData 26 (Z.land (Z.shiftr (tips st) 8) 0xFF) st);
          (fun st => wr_txData 27 (Z.land (tips st) 0xFF) st);
          (fun st => foldl (fun st' i => wr_txData i 0 st') st (seq 28 20)) ] s.

(** Lines 218-221: the checksum of the first [DATA_PACKET_LENGTH-2] bytes,
    held in an [unsigned short], high byte to offset 49, low to 48. *)
Definition calcCRC (s : state) : Z :=
  wrap16 (CRC16 (txData s) (DATA_PACKET_LENGTH - 2)).

Definition add_crc (s : state) : state :=
  let c := calcCRC s in
  block [ wr_txData 49 (Z.shiftr (Z.land c 0xFF00) 8);
          wr_txData 48 (Z.land c 0xFF) ] s.

(** Lines 235-243: [for(j=0;j<50;j++)] with its early [break].  [n] counts
    the iterations still allowed, [j] is the loop variable, and [irq j] is
    what the transceiver answers to the read made in iteration [j]. *)
Fixpoint poll_flags (irq : nat -> Z) (n j : nat) (s : state) : nat * state :=
  match n with
  | O => (j, s)
  | S n' =>
      let flags := wrap8 (irq j) in
      let s := emit (LoRaGetIRQFlags flags) s in
      if flags >? 0 then (j, s)
      else poll_flags irq n' (S j) (emit (delay_ms 10) s)
  end.

(** Lines 225-255: hand the buffer to the transceiver and wait. *)
Definition send_frame (irq : nat -> Z) (s : state) : state :=
  let s := block [ emit (LoRaStart TX_FREQ_kHz SYNC_WORD);
                   debug "TXF";
                   emit LoRaClearIRQFlags;
                   RED_LED 1;
                   (fun st => emit (LoRaTXData (txData st) DATA_PACKET_LENGTH) st);
                   debug "Wait for end of transmission..." ] s in
  let '(j, s) := poll_flags irq 50 0 s in
  block [ debug (if (48 <? j)%nat then "TX Fail" else "Done.");
          emit LoRaSleepMode;
          emit (delay_ms 10);
          (fun st => set_messageCount (wrap32 (messageCount st + 1)) st);
          RED_LED 0 ] s.

Definition transmitData (irq : nat -> Z) : state -> state :=
  block [ debug "Transmitting...";
          fill_frame;
          add_crc;
          send_frame irq ].

(** The [else] branch of [main]: "Flash the red LED 3 times". *)
Definition flash_red_led : state -> state :=
  block [ RED_LED 1; emit (delay_ms 300);
          RED_LED 0; emit (delay_ms 300);
          RED_LED 1; emit (delay_ms 300);
          RED_LED 0; emit (delay_ms 300);
          RED_LED 1; emit (delay_ms 300);
          RED_LED 0; emit (delay_ms 300) ].

(** [if(batt>BATT_UVLO_ATOD)] *)
Definition transmit_branch (b : Z) : bool := b >? BATT_UVLO_ATOD.

Definition decide_transmit (irq : nat -> Z) (s : state) : state :=
  if transmit_branch (batt s) then transmitData irq s else flash_red_led s.

(** The statements of [main] from [start:] up to the two readings. *)
Definition bring_up_and_sample : state -> state :=
  block [ configureIO;
          setupAtoD;
          emit (delay_ms 5);
          debug "LoRa Rain Gauge";
          (fun st => let '(r, st') := readBattery st in set_batt r st');
          (fun st => let '(r, st') := readTemperature st in set_temp r st');
          debug "BATT";
          debug "TEMP" ].

(** The statements of [main] after the [if]: bring-down and [SLEEP()]. *)
Definition quiesce_and_sleep : state -> state :=
  block [ debug "Message count";
          debug "Rain tips";
          disablePeripherals;
          debug "Sleeping";
          emit SLEEP ].

(** [INTCON2bits.INTEDG1=0], executed once before the [start:] label. *)
Definition main_init : state -> state := wr INTCON2bits_INTEDG1 0.

(** One pass of [main] from [start:] to [goto start]. *)
Definition main_cycle (irq : nat -> Z) : state -> state :=
  block [ bring_up_and_sample;
          decide_transmit irq;
          quiesce_and_sleep ].

Definition Isr (s : state) : state :=
  if regs s INTCON3bits_INT1F =? 1 then
    block [ (fun st => set_tips (wrap32 (tips st + 1)) st);
            wr INTCON3bits_INT1F 0;
            RED_LED 1 ] s
  else s.

(** A falling edge on RB1: the hardware raises [INT1F] and, when the
    interrupt and global enables are set, vectors to [Isr]. *)
Definition tip_edge (s : state) : state :=
  let s := wr INTCON3bits_INT1F 1 s in
  if (regs s INTCON3bits_INT1E =? 1) && (regs s INTCONbits_GIE =? 1)
  then Isr s else s.

End Firmware.

(** ** Notions used to state the properties *)

(** Big-endian byte sequences of 16- and 32-bit values, and their value. *)
Definition be16 (v : Z) : list Z := [v / 256 mod 256; v mod 256].
Definition be32 (v : Z) : list Z :=
  [v / 16777216 mod 256; v / 65536 mod 256; v / 256 mod 256; v mod 256].
Definition be_value (l : list Z) : Z := foldl (fun acc b => acc * 256 + b) 0 l.

(** Bytes 0 to 47 of the frame layout, from the four snapshot values. *)
Definition payload (mc b te t : Z) : list Z :=
  [50; 0x00; 0x01] ++ address ++ [0x08] ++ be32 mc ++ be16 b ++ be16 te
  ++ [0; 0; 0; 0] ++ be32 t ++ repeat 0 20.

(** The state [s] with its trace replaced. *)
Definition with_trace (t : list event) (s : state) : state :=
  mkState (regs s) (adc_busy s) (tips s) (messageCount s) (txData s)
          (batt s) (temp s) t.

(** What the polling loop appends to the trace, and where it stops. *)
Fixpoint poll_trace (irq : nat -> Z) (n j : nat) : list event :=
  match n with
  | O => []
  | S n' =>
      if wrap8 (irq j) >? 0 then [LoRaGetIRQFlags (wrap8 (irq j))]
      else LoRaGetIRQFlags (wrap8 (irq j)) :: delay_ms 10
           :: poll_trace irq n' (S j)
  end.

Fixpoint poll_exit (irq : nat -> Z) (n j : nat) : nat :=
  match n with
  | O => j
  | S n' => if wrap8 (irq j) >? 0 then j else poll_exit irq n' (S j)
  end.

(** [k] rounds of "read the flags, find them zero, wait 10 ms". *)
Fixpoint idle_polls (k : nat) : list event :=
  match k with
  | O => []
  | S k' => LoRaGetIRQFlags 0 :: delay_ms 10 :: idle_polls k'
  end.

(** What [transmitData] does before and after the polling loop. *)
Definition tx_prologue (frame : list Z) : list event :=
  [LoRaStart TX_FREQ_kHz SYNC_WORD; LoRaClearIRQFlags; RED_LED_write 1;
   LoRaTXData frame DATA_PACKET_LENGTH].
Definition tx_epilogue : list event :=
  [LoRaSleepMode; delay_ms 10; RED_LED_write 0].

(** How many status-flag reads a trace holds. *)
Fixpoint count_polls (t : list event) : nat :=
  match t with
  | [] => 0%nat
  | LoRaGetIRQFlags _ :: t' => S (count_polls t')
  | _ :: t' => count_polls t'
  end.

(** The fault pattern of the skip branch. *)
Definition blink_pattern : list event :=
  [RED_LED_write 1; delay_ms 300; RED_LED_write 0; delay_ms 300;
   RED_LED_write 1; delay_ms 300; RED_LED_write 0; delay_ms 300;
   RED_LED_write 1; delay_ms 300; RED_LED_write 0; delay_ms 300].

(** General-purpose pins: a port and a bit index. *)
Inductive port : Set := port_A | port_B | port_C | port_D | port_E.

#[global] Instance port_eq_dec : EqDecision port.
Proof. solve_decision. Defined.

Definition TRIS (p : port) : sfr :=
  match p with
  | port_A => TRISA | port_B => TRISB | port_C => TRISC
  | port_D => TRISD | port_E => TRISE
  end.
Definition LAT (p : port) : sfr :=
  match p with
  | port_A => LATA | port_B => LATB | port_C => LATC
  | port_D => LATD | port_E => LATE
  end.

Definition is_input (s : state) (p : port) (n : Z) : bool :=
  Z.testbit (regs s (TRIS p)) n.
Definition output_low (s : state) (p : port) (n : Z) : bool :=
  negb (is_input s p n) && negb (Z.testbit (regs s (LAT p)) n).
Definition output_high (s : state) (p : port) (n : Z) : bool :=
  negb (is_input s p n) && Z.testbit (regs s (LAT p)) n.

(** The pins the bring-down procedure sets apart. *)
Definition RB1 : port * Z := (port_B, 1).
Definition RD1 : port * Z := (port_D, 1).
Definition RA2 : port * Z := (port_A, 2).
Definition RD3 : port * Z := (port_D, 3).

(** A checksum routine keeps to the length it is given. *)
Definition respects_length (crc : list Z -> Z -> Z) : Prop :=
  forall (b1 b2 : list Z) (n : Z),
    take (Z.to_nat n) b1 = take (Z.to_nat n) b2 -> crc b1 n = crc b2 n.

(** ** Executions: calls of the program's functions and tip edges *)

Section Executions.

Variable adc_sample : Z -> Z -> Z.
Variable adc_latency : nat.
Variable CRC16 : list Z -> Z -> Z.

Inductive action : Type :=
  | call_main_init
  | call_configureIO
  | call_setupAtoD
  | call_readBattery
  | call_readTemperature
  | call_transmitData (irq : nat -> Z)
  | call_flash_red_led
  | call_disablePeripherals
  | call_main_cycle (irq : nat -> Z)
  | call_Isr
  | edge.

Definition perform (a : action) (s : state) : state :=
  match a with
  | call_main_init => main_init s
  | call_configureIO => configureIO s
  | call_setupAtoD => setupAtoD s
  | call_readBattery => snd (readBattery adc_sample adc_latency s)
  | call_readTemperature => snd (readTemperature adc_sample adc_latency s)
  | call_transmitData irq => transmitData CRC16 irq s
  | call_flash_red_led => flash_red_led s
  | call_disablePeripherals => disablePeripherals s
  | call_main_cycle irq => main_cycle adc_sample adc_latency CRC16 irq s
  | call_Isr => Isr s
  | edge => tip_edge s
  end.

Definition run (acts : list action) (s : state) : state :=
  foldl (fun st a => perform a st) s acts.

(** The action is a handler invocation that finds the INT1 flag raised. *)
Definition qualifying (a : action) (s : state) : bool :=
  match a with
  | call_Isr => regs s INTCON3bits_INT1F =? 1
  | edge => (regs s INTCON3bits_INT1E =? 1) && (regs s INTCONbits_GIE =? 1)
  | _ => false
  end.

Fixpoint tip_events (acts : list action) (s : state) : Z :=
  match acts with
  | [] => 0
  | a :: rest =>
      (if qualifying a s then 1 else 0) + tip_events rest (perform a s)
  end.

End Executions.

(** ** Concrete collaborators and states for the examples *)

(** A byte sum over the first [n] bytes stands in for the checksum. *)
Definition sum_crc (b : list Z) (n : Z) : Z :=
  foldl Z.add 0 (take (Z.to_nat n) b).

(** Channel 0 converts to 600 against the internal reference, channel 1 to
    450 against the supply. *)
Definition bench_adc (pvcfg chs : Z) : Z :=
  if chs =? 0 then (if pvcfg =? 2 then 600 else 180) else 450.

(** A weak battery: channel 0 converts to 499. *)
Definition weak_adc (pvcfg chs : Z) : Z :=
  if chs =? 0 then 499 else 450.

Definition never_done : nat -> Z := fun _ => 0.
Definition done_at (k : nat) : nat -> Z :=
  fun j => if (j =? k)%nat then 0x08 else 0.

(** The end-to-end scenario: 3 tips, message 7, battery 600, temperature
    450, over a buffer and registers holding leftovers. *)
Definition scenario : state :=
  mkState (fun _ => 0) 0%nat 3 7 (repeat 0xAA 50) 600 450 [].

(** The same snapshot over different leftovers. *)
Definition scenario_again : state :=
  mkState (fun _ => 1) 2%nat 3 7 (repeat 0x55 50) 600 450 [SLEEP].

(** A battery reading exactly at the threshold. *)
Definition at_threshold : state := set_batt 500 scenario.

(** The state in which the temperature has just been read. *)
Definition after_temperature : state :=
  snd (readTemperature bench_adc 0 (setupAtoD (configureIO scenario))).

(** A tip edge arrives during sleep, between two cycles. *)
Definition two_cycles_one_tip : list (action) :=
  [call_main_init; call_main_cycle never_done; edge;
   call_main_cycle (done_at 3)].

(** ** Further notions for whole cycles and executions *)

(** Milliseconds a trace spends in blocking delays. *)
Fixpoint total_delay (t : list event) : Z :=
  match t with
  | [] => 0
  | delay_ms n :: t' => n + total_delay t'
  | _ :: t' => total_delay t'
  end.

(** The transceiver actions of a trace, in order. *)
Fixpoint LoRa_events (t : list event) : list event :=
  match t with
  | [] => []
  | e :: t' => if is_LoRa e then e :: LoRa_events t' else LoRa_events t'
  end.

(** The registers and fields that [disablePeripherals] does not write. *)
Definition kept_by_bring_down (r : sfr) : bool :=
  match r with
  | ADRESH | ADRESL
  | ADCON0bits_GO_NOT_DONE | ADCON0bits_CHS
  | ADCON1bits_PVCFG | ADCON1bits_NVCFG
  | ADCON2bits_ACQT | ADCON2bits_ADCS | ADCON2bits_ADFM
  | VREFCON0bits_FVRS | VREFCON0bits_FVREN
  | INTCONbits_GIE | INTCON2bits_INTEDG1
  | INTCON3bits_INT1E | INTCON3bits_INT1F
  | ANSELAbits_ANSA0 | ANSELAbits_ANSA1 | ANSELAbits_ANSA2
  | ANSELBbits_ANSB1 | ANSELBbits_ANSB4
  | ANSELEbits_ANSE1 | ANSELEbits_ANSE2 => true
  | _ => false
  end.

(** The tip interrupt is enabled, globally and on INT1, and none is
    pending. *)
Definition armed (s : state) : Prop :=
  regs s INTCON3bits_INT1E = 1
  /\ regs s INTCONbits_GIE = 1
  /\ regs s INTCON3bits_INT1F = 0.

(** How many tip edges an execution holds. *)
Fixpoint count_edges (acts : list action) : Z :=
  match acts with
  | [] => 0
  | edge :: rest => 1 + count_edges rest
  | _ :: rest => count_edges rest
  end.

(** The pins whose direction the bring-up sets. *)
Definition RA0 : port * Z := (port_A, 0).
Definition RA1 : port * Z := (port_A, 1).
Definition RE1 : port * Z := (port_E, 1).
Definition RE2 : port * Z := (port_E, 2).

(** A state in which the tip interrupt has not been enabled yet and one
    in which a cycle has completed. *)
Definition after_one_cycle : state :=
  main_cycle bench_adc 0 sum_crc never_done (main_init scenario).

(** * Properties *)

(** ** Arithmetic of the byte extractions *)

Lemma byte_of_shift (v k : Z) :
  0 <= k -> wrap8 (Z.land (Z.shiftr v k) 255) = (v / 2 ^ k) mod 256.
Proof.
  intros Hk. unfold wrap8.
  rewrite Z.shiftr_div_pow2 by assumption.
  change 255 with (Z.ones 8).
  rewrite Z.land_ones by lia.
  change (2 ^ 8) with 256.
  apply Z.mod_mod. lia.
Qed.

Lemma byte_low (v : Z) : wrap8 (Z.land v 255) = v mod 256.
Proof.
  unfold wrap8. change 255 with (Z.ones 8).
  rewrite Z.land_ones by lia. change (2 ^ 8) with 256.
  apply Z.mod_mod. lia.
Qed.

Lemma be32_value (v : Z) : 0 <= v < 4294967296 -> be_value (be32 v) = v.
Proof.
  intros Hv. unfold be_value, be32. cbn [foldl].
  pose proof (Z.div_mod v 256 ltac:(lia)) as E0.
  pose proof (Z.div_mod (v / 256) 256 ltac:(lia)) as E1.
  pose proof (Z.div_mod (v / 256 / 256) 256 ltac:(lia)) as E2.
  assert (H3 : 0 <= v / 256 / 256 / 256 < 256).
  { split.
    - repeat apply Z.div_pos; lia.
    - repeat (apply Z.div_lt_upper_bound; [lia|]). lia. }
  rewrite (Z.mod_small (v / 16777216) 256).
  2:{ change 16777216 with (256 * (256 * 256)).
      rewrite <- !Z.div_div by lia. exact H3. }
  change 16777216 with (256 * (256 * 256)).
  change 65536 with (256 * 256).
  rewrite <- !Z.div_div by lia.
  lia.
Qed.

Lemma be16_value (v : Z) : 0 <= v < 65536 -> be_value (be16 v) = v.
Proof.
  intros Hv. unfold be_value, be16. cbn [foldl].
  pose proof (Z.div_mod v 256 ltac:(lia)) as E0.
  rewrite (Z.mod_small (v / 256) 256).
  2:{ split; [apply Z.div_pos; lia | apply Z.div_lt_upper_bound; lia]. }
  lia.
Qed.

(** ** Evaluation of straight-line code *)

(** Splits a list of known length 50 into its elements. *)
Ltac explode50 buf H :=
  do 50 (destruct buf as [|? buf]; [discriminate H|]);
  destruct buf; [clear H | discriminate H].

Ltac frame_eval :=
  cbv -[Z.land Z.shiftr Z.modulo Z.div Z.add Z.mul Z.setbit Z.clearbit
        Z.testbit Z.eqb Z.gtb wrap8 wrap16 wrap32].

Section Proofs.

Variable adc_sample : Z -> Z -> Z.
Variable adc_latency : nat.
Variable CRC16 : list Z -> Z -> Z.

Local Abbreviation readBattery := (readBattery adc_sample adc_latency).
Local Abbreviation readTemperature := (readTemperature adc_sample adc_latency).
Local Abbreviation adc_finish := (adc_finish adc_sample).
Local Abbreviation adc_tick := (adc_tick adc_sample).
Local Abbreviation busy_wait := (busy_wait adc_sample).
Local Abbreviation while_GO_NOT_DONE := (while_GO_NOT_DONE adc_sample).
Local Abbreviation start_conversion := (start_conversion adc_latency).
Local Abbreviation transmitData := (transmitData CRC16).
Local Abbreviation add_crc := (add_crc CRC16).
Local Abbreviation calcCRC := (calcCRC CRC16).
Local Abbreviation decide_transmit := (decide_transmit CRC16).
Local Abbreviation bring_up_and_sample := (bring_up_and_sample adc_sample adc_latency).
Local Abbreviation main_cycle := (main_cycle adc_sample adc_latency CRC16).
Local Abbreviation perform := (perform adc_sample adc_latency CRC16).
Local Abbreviation run := (run adc_sample adc_latency CRC16).
Local Abbreviation tip_events := (tip_events adc_sample adc_latency CRC16).

(** *** The payload *)

Lemma fill_frame_spec (s : state) :
  length (txData s) = 50%nat ->
  fill_frame s =
  set_txData (fun b => payload (messageCount s) (batt s) (temp s) (tips s)
                       ++ drop 48 b) s.
Proof.
  destruct s as [r ab t mc buf b te tr]. cbn [txData]. intros H.
  explode50 buf H.
  frame_eval.
  rewrite !byte_of_shift by lia.
  rewrite !byte_low.
  reflexivity.
Qed.

(** *** The checksum bytes *)

Lemma calcCRC_range (s : state) : 0 <= calcCRC s < 65536.
Proof. unfold calcCRC, wrap16. apply Z.mod_pos_bound. lia. Qed.

Lemma crc_high_byte (c : Z) :
  0 <= c < 65536 -> wrap8 (Z.shiftr (Z.land c 0xFF00) 8) = c / 256.
Proof.
  intros Hc. rewrite Z.shiftr_land. change (Z.shiftr 0xFF00 8) with 255.
  rewrite byte_of_shift by lia. change (2 ^ 8) with 256.
  apply Z.mod_small. split.
  - apply Z.div_pos; lia.
  - apply Z.div_lt_upper_bound; lia.
Qed.

Lemma add_crc_spec (s : state) :
  length (txData s) = 50%nat ->
  add_crc s =
  set_txData (fun b => take 48 b ++ [calcCRC s mod 256; calcCRC s / 256]) s.
Proof.
  intros H. unfold add_crc.
  pose proof (calcCRC_range s) as Hc.
  set (c := calcCRC s) in *. clearbody c.
  destruct s as [r ab t mc buf b te tr]. cbn [txData] in H.
  explode50 buf H.
  frame_eval.
  rewrite crc_high_byte by assumption. rewrite byte_low.
  reflexivity.
Qed.

(** *** The polling loop *)

Lemma poll_flags_spec (irq : nat -> Z) (n : nat) :
  forall (j : nat) (s : state),
    poll_flags irq n j s =
    (poll_exit irq n j, with_trace (trace s ++ poll_trace irq n j) s).
Proof.
  induction n as [|n IH]; intros j s.
  - destruct s; cbn. rewrite app_nil_r. reflexivity.
  - cbn [poll_flags poll_exit poll_trace].
    destruct (wrap8 (irq j) >? 0) eqn:E.
    + reflexivity.
    + rewrite IH. destruct s; cbn. rewrite <- !app_assoc. reflexivity.
Qed.

Lemma poll_trace_idle (irq : nat -> Z) (n : nat) :
  forall j : nat,
    (forall i : nat, (j <= i < j + n)%nat -> wrap8 (irq i) = 0) ->
    poll_trace irq n j = idle_polls n /\ poll_exit irq n j = (j + n)%nat.
Proof.
  induction n as [|n IH]; intros j Hz.
  - cbn. split; [reflexivity | lia].
  - cbn [poll_trace poll_exit idle_polls].
    rewrite (Hz j) by lia. cbn.
    destruct (IH (S j)) as [E1 E2].
    { intros i Hi. apply Hz. lia. }
    rewrite E1, E2. split; [reflexivity | lia].
Qed.

Lemma poll_trace_done (irq : nat -> Z) (k : nat) :
  forall n j : nat,
    (k < n)%nat ->
    (forall i : nat, (j <= i < j + k)%nat -> wrap8 (irq i) = 0) ->
    wrap8 (irq (j + k)%nat) <> 0 ->
    poll_trace irq n j =
      idle_polls k ++ [LoRaGetIRQFlags (wrap8 (irq (j + k)%nat))]
    /\ poll_exit irq n j = (j + k)%nat.
Proof.
  induction k as [|k IH]; intros n j Hk Hz Hnz.
  - destruct n as [|n]; [lia|].
    cbn [poll_trace poll_exit idle_polls].
    replace (j + 0)%nat with j in * by lia.
    assert (0 <= wrap8 (irq j) < 256) by (apply Z.mod_pos_bound; lia).
    assert (E : (wrap8 (irq j) >? 0) = true) by (apply Z.gtb_lt; lia).
    rewrite E. split; reflexivity.
  - destruct n as [|n]; [lia|].
    cbn [poll_trace poll_exit idle_polls].
    rewrite (Hz j) by lia. cbn [Z.gtb Z.compare].
    destruct (IH n (S j)) as [E1 E2].
    + lia.
    + intros i Hi. apply Hz. lia.
    + replace (S j + k)%nat with (j + S k)%nat by lia. exact Hnz.
    + rewrite E1, E2.
      replace (S j + k)%nat with (j + S k)%nat by lia.
      split; reflexivity.
Qed.

(** *** The transmit sequence *)

Lemma send_frame_spec (irq : nat -> Z) (s : state) :
  send_frame irq s =
  set_messageCount (wrap32 (messageCount s + 1))
    (with_trace (trace s ++ tx_prologue (txData s)
                 ++ poll_trace irq 50 0 ++ tx_epilogue)
       (wr_bit LATE 2 0 (wr_bit LATE 2 1 s))).
Proof.
  unfold send_frame. cbn [block foldl debug DEBUG].
  rewrite poll_flags_spec.
  destruct s as [r ab t mc buf b te tr].
  cbv -[poll_trace wrap32 Z.setbit Z.clearbit Z.add
        insert fn_insert sfr_eq_dec app].
  rewrite <- !app_assoc. reflexivity.
Qed.

(** *** The converter and the two readings *)

Lemma adc_finish_busy (k : nat) (s : state) :
  adc_finish (set_adc_busy k s) = adc_finish s.
Proof. destruct s; reflexivity. Qed.

Lemma adc_finish_GO (s : state) :
  regs (adc_finish s) ADCON0bits_GO_NOT_DONE = 0.
Proof. destruct s; reflexivity. Qed.

Lemma busy_wait_finish (n : nat) :
  forall s : state,
    regs s ADCON0bits_GO_NOT_DONE <> 0 ->
    adc_busy s = S n ->
    busy_wait (S n) s = adc_finish s.
Proof.
  induction n as [|n IH]; intros s Hgo Hb.
  - cbn [busy_wait].
    destruct (regs s ADCON0bits_GO_NOT_DONE =? 0) eqn:E;
      [apply Z.eqb_eq in E; contradiction|].
    unfold adc_tick. rewrite Hb.
    rewrite adc_finish_GO. reflexivity.
  - change (busy_wait (S (S n)) s)
      with (if regs s ADCON0bits_GO_NOT_DONE =? 0 then s
            else busy_wait (S n) (adc_tick s)).
    destruct (regs s ADCON0bits_GO_NOT_DONE =? 0) eqn:E;
      [apply Z.eqb_eq in E; contradiction|].
    unfold adc_tick. rewrite Hb.
    rewrite IH.
    + apply adc_finish_busy.
    + destruct s; exact Hgo.
    + reflexivity.
Qed.

Lemma conversion_completes (s : state) :
  while_GO_NOT_DONE (start_conversion s) = adc_finish (start_conversion s).
Proof.
  unfold while_GO_NOT_DONE.
  apply busy_wait_finish.
  - destruct s; cbv. discriminate.
  - reflexivity.
Qed.

Lemma readBattery_spec (s : state) :
  readBattery s =
  let s' := adc_finish (start_conversion (wr ADCON1bits_PVCFG 2 s)) in
  (read_result s', s').
Proof.
  unfold readBattery. cbn [block foldl].
  rewrite conversion_completes. reflexivity.
Qed.

Lemma readTemperature_spec (s : state) :
  readTemperature s =
  let s' := adc_finish (start_conversion
              (wr ADCON0bits_CHS 1 (wr ADCON1bits_PVCFG 0 s))) in
  (read_result s', s').
Proof.
  unfold readTemperature. cbn [block foldl].
  rewrite conversion_completes. reflexivity.
Qed.

(** *** What each function leaves alone *)

Ltac buffer_eval :=
  cbv -[Z.land Z.shiftr Z.modulo Z.div Z.add Z.mul Z.setbit Z.clearbit
        Z.testbit Z.eqb Z.gtb wrap8 wrap16 wrap32 app poll_trace
        insert list_insert fn_insert sfr_eq_dec].

Lemma fill_frame_frame (s : state) :
  fill_frame s = set_txData (fun _ => txData (fill_frame s)) s.
Proof. destruct s as [r ab t mc buf b te tr]. buffer_eval. reflexivity. Qed.

Lemma add_crc_frame (s : state) :
  add_crc s = set_txData (fun _ => txData (add_crc s)) s.
Proof.
  unfold add_crc. set (c := calcCRC s). clearbody c.
  destruct s as [r ab t mc buf b te tr]. buffer_eval. reflexivity.
Qed.

Lemma transmitData_frame (irq : nat -> Z) (s : state) :
  transmitData irq s =
  set_messageCount (wrap32 (messageCount s + 1))
    (with_trace (trace s ++ tx_prologue (txData (add_crc (fill_frame s)))
                 ++ poll_trace irq 50 0 ++ tx_epilogue)
       (wr_bit LATE 2 0 (wr_bit LATE 2 1
          (set_txData (fun _ => txData (add_crc (fill_frame s))) s)))).
Proof.
  unfold transmitData. cbn [block foldl debug DEBUG].
  set (s1 := fill_frame s). set (s2 := add_crc s1).
  assert (E2 : s2 = set_txData (fun _ => txData s2) s1)
    by apply add_crc_frame.
  assert (E1 : s1 = set_txData (fun _ => txData s1) s)
    by apply fill_frame_frame.
  set (b2 := txData s2) in *. set (b1 := txData s1) in *.
  clearbody b2 b1. clearbody s2. clearbody s1. subst s2 s1.
  rewrite send_frame_spec.
  destruct s as [r ab t mc buf b te tr]. reflexivity.
Qed.

Lemma sample_unfold (s : state) :
  bring_up_and_sample s =
  let s1 := emit (delay_ms 5) (setupAtoD (configureIO s)) in
  let s2 := adc_finish (start_conversion (wr ADCON1bits_PVCFG 2 s1)) in
  let s3 := set_batt (read_result s2) s2 in
  let s4 := adc_finish (start_conversion
              (wr ADCON0bits_CHS 1 (wr ADCON1bits_PVCFG 0 s3))) in
  set_temp (read_result s4) s4.
Proof.
  unfold bring_up_and_sample. cbn [block foldl debug DEBUG].
  rewrite readBattery_spec. cbn zeta.
  rewrite readTemperature_spec. reflexivity.
Qed.

Lemma right_justified (x : Z) :
  wrap16 ((x mod 1024) / 256 * 256 + (x mod 1024) mod 256) = x mod 1024.
Proof.
  assert (Hr : 0 <= x mod 1024 < 1024) by (apply Z.mod_pos_bound; lia).
  pose proof (Z.div_mod (x mod 1024) 256 ltac:(lia)) as E.
  replace ((x mod 1024) / 256 * 256 + (x mod 1024) mod 256)
    with (x mod 1024) by lia.
  unfold wrap16. apply Z.mod_small. lia.
Qed.

Lemma sample_facts (s : state) :
  let s1 := bring_up_and_sample s in
  batt s1 = adc_sample 2 0 mod 1024
  /\ temp s1 = adc_sample 0 1 mod 1024
  /\ tips s1 = tips s
  /\ messageCount s1 = messageCount s
  /\ txData s1 = txData s
  /\ trace s1 = trace s ++ [USART2_Start; delay_ms 5]
  /\ regs s1 INTCON3bits_INT1E = 1
  /\ regs s1 INTCONbits_GIE = 1.
Proof.
  cbn zeta. rewrite sample_unfold.
  destruct s as [r ab t mc buf b te tr].
  repeat split.
  - cbv -[Z.modulo Z.div Z.add Z.mul wrap16]. apply right_justified.
  - cbv -[Z.modulo Z.div Z.add Z.mul wrap16]. apply right_justified.
  - cbv -[app]. rewrite <- app_assoc. reflexivity.
Qed.

Lemma transmitData_txData (irq : nat -> Z) (s : state) :
  txData (transmitData irq s) = txData (add_crc (fill_frame s)).
Proof.
  rewrite transmitData_frame.
  generalize (txData (add_crc (fill_frame s))). intros l.
  destruct s; reflexivity.
Qed.

Lemma transmitData_trace (irq : nat -> Z) (s : state) :
  trace (transmitData irq s) =
  trace s ++ tx_prologue (txData (add_crc (fill_frame s)))
  ++ poll_trace irq 50 0 ++ tx_epilogue.
Proof.
  rewrite transmitData_frame.
  generalize (txData (add_crc (fill_frame s))). intros l.
  destruct s; reflexivity.
Qed.

Lemma transmitData_messageCount (irq : nat -> Z) (s : state) :
  messageCount (transmitData irq s) = wrap32 (messageCount s + 1).
Proof.
  rewrite transmitData_frame.
  generalize (txData (add_crc (fill_frame s))). intros l.
  destruct s; reflexivity.
Qed.

Lemma transmitData_tips (irq : nat -> Z) (s : state) :
  tips (transmitData irq s) = tips s.
Proof.
  rewrite transmitData_frame.
  generalize (txData (add_crc (fill_frame s))). intros l.
  destruct s; reflexivity.
Qed.

Lemma transmitData_regs (irq : nat -> Z) (s : state) :
  regs (transmitData irq s) =
  regs (wr_bit LATE 2 0 (wr_bit LATE 2 1 s)).
Proof.
  rewrite transmitData_frame.
  generalize (txData (add_crc (fill_frame s))). intros l.
  destruct s; reflexivity.
Qed.

Lemma frame_bytes (s : state) :
  length (txData s) = 50%nat ->
  txData (add_crc (fill_frame s)) =
  payload (messageCount s) (batt s) (temp s) (tips s)
  ++ [calcCRC (fill_frame s) mod 256; calcCRC (fill_frame s) / 256].
Proof.
  intros H.
  assert (H1 : length (txData (fill_frame s)) = 50%nat).
  { rewrite fill_frame_spec by assumption. cbn [txData set_txData].
    rewrite length_app, length_drop, H. reflexivity. }
  rewrite (add_crc_spec _ H1).
  generalize (calcCRC (fill_frame s)). intros c.
  rewrite fill_frame_spec by assumption.
  destruct s as [r ab t mc buf b te tr].
  cbn [set_txData txData messageCount batt temp tips].
  rewrite take_app_length' by reflexivity. reflexivity.
Qed.

(** ** The threshold decision *)

(** C1 (as amended).  The comparison in [main] is strict: for every
    battery reading the transmit branch is taken exactly when the reading
    is above 500.  A reading of 501 transmits; readings of 500 and of 499
    both take the skip branch. *)
Theorem transmit_iff_above_threshold (irq : nat -> Z) (s : state) :
  BATT_UVLO_ATOD = 500
  /\ (transmit_branch (batt s) = true <-> 500 < batt s)
  /\ decide_transmit irq s =
       (if 500 <? batt s then transmitData irq s else flash_red_led s)
  /\ transmit_branch 501 = true
  /\ transmit_branch 500 = false
  /\ transmit_branch 499 = false.
Proof.
  split; [reflexivity|].
  assert (E : transmit_branch (batt s) = (500 <? batt s)).
  { unfold transmit_branch. change BATT_UVLO_ATOD with 500.
    rewrite Z.gtb_ltb. reflexivity. }
  split.
  { rewrite E. apply Z.ltb_lt. }
  split.
  { unfold decide_transmit. rewrite E. reflexivity. }
  repeat split.
Qed.

(** ** The frame *)

(** C2.  With the 50-byte buffer in any prior condition, the frame built
    by [transmitData] has byte 0 = 50, bytes 1-2 = (0x00, 0x01), bytes
    3-10 = the address, byte 11 = 0x08, bytes 12-15 the message count,
    16-17 the battery reading, 18-19 the temperature reading, 24-27 the
    tip count, each big-endian, and zeros at 20-23 and 28-47; for 3 tips,
    message 7, battery 600 and temperature 450 these are the bytes of the
    end-to-end scenario. *)
Theorem frame_layout (irq : nat -> Z) (s : state) :
  length (txData s) = 50%nat ->
  0 <= messageCount s < 4294967296 ->
  0 <= batt s < 65536 ->
  0 <= temp s < 65536 ->
  0 <= tips s < 4294967296 ->
  let f := txData (transmitData irq s) in
  f !! 0%nat = Some 50
  /\ take 2 (drop 1 f) = [0x00; 0x01]
  /\ take 8 (drop 3 f) = address
  /\ f !! 11%nat = Some 0x08
  /\ take 4 (drop 12 f) = be32 (messageCount s)
  /\ be_value (take 4 (drop 12 f)) = messageCount s
  /\ take 2 (drop 16 f) = be16 (batt s)
  /\ be_value (take 2 (drop 16 f)) = batt s
  /\ take 2 (drop 18 f) = be16 (temp s)
  /\ be_value (take 2 (drop 18 f)) = temp s
  /\ take 4 (drop 20 f) = [0; 0; 0; 0]
  /\ take 4 (drop 24 f) = be32 (tips s)
  /\ be_value (take 4 (drop 24 f)) = tips s
  /\ take 20 (drop 28 f) = repeat 0 20
  /\ (tips s = 3 -> messageCount s = 7 -> batt s = 600 -> temp s = 450 ->
      take 48 f =
      [50; 0x00; 0x01; 0xE6; 0xBA; 0x08; 0xFB; 0x3A; 0x4F; 0x5E; 0xCE; 0x08;
       0x00; 0x00; 0x00; 0x07; 0x02; 0x58; 0x01; 0xC2; 0; 0; 0; 0;
       0x00; 0x00; 0x00; 0x03;
       0; 0; 0; 0; 0; 0; 0; 0; 0; 0; 0; 0; 0; 0; 0; 0; 0; 0; 0; 0]).
Proof.
  intros Hlen Hmc Hb Hte Ht f.
  assert (Ef : f = payload (messageCount s) (batt s) (temp s) (tips s)
                   ++ [calcCRC (fill_frame s) mod 256;
                       calcCRC (fill_frame s) / 256]).
  { unfold f. rewrite transmitData_txData. apply frame_bytes, Hlen. }
  clearbody f. subst f.
  set (c := calcCRC (fill_frame s)). clearbody c.
  assert (E12 : take 4 (drop 12 (payload (messageCount s) (batt s) (temp s)
                  (tips s) ++ [c mod 256; c / 256])) = be32 (messageCount s))
    by reflexivity.
  assert (E16 : take 2 (drop 16 (payload (messageCount s) (batt s) (temp s)
                  (tips s) ++ [c mod 256; c / 256])) = be16 (batt s))
    by reflexivity.
  assert (E18 : take 2 (drop 18 (payload (messageCount s) (batt s) (temp s)
                  (tips s) ++ [c mod 256; c / 256])) = be16 (temp s))
    by reflexivity.
  assert (E24 : take 4 (drop 24 (payload (messageCount s) (batt s) (temp s)
                  (tips s) ++ [c mod 256; c / 256])) = be32 (tips s))
    by reflexivity.
  rewrite E12, E16, E18, E24.
  rewrite !be32_value, !be16_value by assumption.
  repeat split.
  intros -> -> -> ->. reflexivity.
Qed.

(** C3.  The checksum is [CRC16] applied to the buffer with length 48,
    at the moment when bytes 0-47 hold the payload of the frame that is
    sent; its low byte goes to offset 48 and its high byte to offset 49.
    A routine that keeps to the length it is given therefore computes it
    over exactly bytes 0-47 of the frame. *)
Theorem checksum_placement (irq : nat -> Z) (s : state) :
  length (txData s) = 50%nat ->
  let buf := txData (fill_frame s) in
  let c := calcCRC (fill_frame s) in
  let f := txData (transmitData irq s) in
  c = wrap16 (CRC16 buf 48)
  /\ take 48 f = take 48 buf
  /\ length f = 50%nat
  /\ f !! 48%nat = Some (Z.land c 0xFF)
  /\ f !! 49%nat = Some (Z.shiftr c 8)
  /\ Z.shiftr c 8 * 256 + Z.land c 0xFF = c
  /\ In (LoRaTXData f 50) (trace (transmitData irq s))
  /\ (respects_length CRC16 -> c = wrap16 (CRC16 (take 48 f) 48)).
Proof.
  intros Hlen buf c f.
  assert (Ef : f = payload (messageCount s) (batt s) (temp s) (tips s)
                   ++ [c mod 256; c / 256]).
  { unfold f, c. rewrite transmitData_txData. apply frame_bytes, Hlen. }
  assert (Eb : buf = payload (messageCount s) (batt s) (temp s) (tips s)
                     ++ drop 48 (txData s)).
  { unfold buf. rewrite fill_frame_spec by assumption.
    destruct s; reflexivity. }
  assert (Hc : 0 <= c < 65536) by apply calcCRC_range.
  assert (Elo : Z.land c 0xFF = c mod 256).
  { change 0xFF with (Z.ones 8). rewrite Z.land_ones by lia. reflexivity. }
  assert (Ehi : Z.shiftr c 8 = c / 256).
  { rewrite Z.shiftr_div_pow2 by lia. reflexivity. }
  assert (E48 : take 48 f = take 48 buf).
  { rewrite Ef, Eb. rewrite !take_app_length' by reflexivity. reflexivity. }
  assert (Etr : trace (transmitData irq s)
                = trace s ++ tx_prologue f ++ poll_trace irq 50 0
                  ++ tx_epilogue).
  { unfold f. rewrite transmitData_txData. apply transmitData_trace. }
  split; [reflexivity|].
  split; [exact E48|].
  split; [rewrite Ef; reflexivity|].
  split; [rewrite Ef, Elo; reflexivity|].
  split; [rewrite Ef, Ehi; reflexivity|].
  split.
  { rewrite Elo, Ehi. pose proof (Z.div_mod c 256 ltac:(lia)). lia. }
  split.
  { rewrite Etr. apply in_or_app. right. apply in_or_app. left.
    unfold tx_prologue. do 3 right. left. reflexivity. }
  intros Hcrc. unfold c, calcCRC. f_equal.
  apply Hcrc. change (Z.to_nat (DATA_PACKET_LENGTH - 2)) with 48%nat.
  rewrite take_take. symmetry. exact E48.
Qed.

(** C9.  The frame is a function of the message count, the two readings
    and the tip count alone: two runs that agree on these, over buffers
    with arbitrary prior contents and with arbitrary other state and
    transceiver answers, produce the same 50 bytes (the checksum routine
    keeping to the length it is given). *)
Theorem frame_deterministic (irq1 irq2 : nat -> Z) (s1 s2 : state) :
  respects_length CRC16 ->
  length (txData s1) = 50%nat ->
  length (txData s2) = 50%nat ->
  messageCount s1 = messageCount s2 ->
  batt s1 = batt s2 ->
  temp s1 = temp s2 ->
  tips s1 = tips s2 ->
  txData (add_crc (fill_frame s1)) = txData (add_crc (fill_frame s2))
  /\ txData (transmitData irq1 s1) = txData (transmitData irq2 s2)
  /\ length (txData (transmitData irq1 s1)) = 50%nat.
Proof.
  intros Hcrc H1 H2 Emc Eb Ete Et.
  assert (Ec : calcCRC (fill_frame s1) = calcCRC (fill_frame s2)).
  { unfold calcCRC. f_equal. apply Hcrc.
    change (Z.to_nat (DATA_PACKET_LENGTH - 2)) with 48%nat.
    rewrite !fill_frame_spec by assumption.
    destruct s1, s2. cbn [set_txData txData messageCount batt temp tips] in *.
    subst. rewrite !take_app_length' by reflexivity. reflexivity. }
  rewrite !transmitData_txData. rewrite !frame_bytes by assumption.
  rewrite Ec, Emc, Eb, Ete, Et.
  repeat split.
Qed.

(** ** The transmit sequencer *)

(** C4.  When every status-flag read answers zero, [transmitData] makes
    exactly 50 reads, each followed by a 10 ms delay, then commands the
    transceiver to sleep and increments [messageCount] by one (in 32-bit
    unsigned arithmetic); when a read within the bound answers nonzero the
    loop stops there and the same closing steps follow. *)
Theorem poll_timeout (irq : nat -> Z) (s : state) :
  (forall j : nat, (j < 50)%nat -> wrap8 (irq j) = 0) ->
  let s' := transmitData irq s in
  let frame := txData s' in
  trace s' = trace s ++ tx_prologue frame ++ idle_polls 50 ++ tx_epilogue
  /\ count_polls (drop (length (trace s)) (trace s')) = 50%nat
  /\ tx_epilogue = [LoRaSleepMode; delay_ms 10; RED_LED_write 0]
  /\ messageCount s' = wrap32 (messageCount s + 1)
  /\ (0 <= messageCount s < 4294967295 ->
      messageCount s' = messageCount s + 1)
  /\ (forall (irq' : nat -> Z) (k : nat),
        (k < 50)%nat ->
        (forall i : nat, (i < k)%nat -> wrap8 (irq' i) = 0) ->
        wrap8 (irq' k) <> 0 ->
        trace (transmitData irq' s) =
          trace s ++ tx_prologue frame ++ idle_polls k
          ++ [LoRaGetIRQFlags (wrap8 (irq' k))] ++ tx_epilogue
        /\ messageCount (transmitData irq' s) = messageCount s').
Proof.
  intros Hz s' frame.
  assert (Ef : frame = txData (add_crc (fill_frame s)))
    by apply transmitData_txData.
  assert (Et : trace s' = trace s ++ tx_prologue frame ++ idle_polls 50
                            ++ tx_epilogue).
  { unfold s'. rewrite transmitData_trace, Ef.
    destruct (poll_trace_idle irq 50 0) as [E _].
    { intros i Hi. apply Hz. lia. }
    rewrite E. reflexivity. }
  assert (Em : messageCount s' = wrap32 (messageCount s + 1))
    by apply transmitData_messageCount.
  split; [exact Et|].
  split.
  { rewrite Et. rewrite drop_app_length.
    generalize frame. intros l. reflexivity. }
  split; [reflexivity|].
  split; [exact Em|].
  split.
  { intros Hmc. rewrite Em. unfold wrap32. apply Z.mod_small. lia. }
  intros irq' k Hk Hz' Hnz.
  split.
  - rewrite transmitData_trace, Ef.
    destruct (poll_trace_done irq' k 50 0 Hk) as [E _].
    { intros i Hi. apply Hz'. lia. }
    { exact Hnz. }
    rewrite E. cbn [Nat.add]. rewrite <- app_assoc. reflexivity.
  - rewrite Em. apply transmitData_messageCount.
Qed.

(** ** The interrupt handler *)

Lemma Isr_fires (s : state) :
  regs s INTCON3bits_INT1F = 1 ->
  Isr s = RED_LED 1 (wr INTCON3bits_INT1F 0
            (set_tips (wrap32 (tips s + 1)) s)).
Proof. intros H. unfold Isr. rewrite H. reflexivity. Qed.

Lemma Isr_idle (s : state) :
  regs s INTCON3bits_INT1F <> 1 -> Isr s = s.
Proof.
  intros H. unfold Isr.
  destruct (regs s INTCON3bits_INT1F =? 1) eqn:E; [|reflexivity].
  apply Z.eqb_eq in E. contradiction.
Qed.

Lemma Isr_counts (s : state) :
  regs s INTCON3bits_INT1F = 1 ->
  tips (Isr s) = wrap32 (tips s + 1)
  /\ regs (Isr s) INTCON3bits_INT1F = 0.
Proof.
  intros H. rewrite (Isr_fires s H).
  destruct s as [r ab t mc buf b te tr]. split; reflexivity.
Qed.

(** C10.  Entered with the INT1 flag raised, the handler also sets
    [LATE] bit 2, the red LED, besides counting the tip and clearing the
    flag, and touches nothing else; entered with the flag clear, it
    returns the state as it found it. *)
Theorem Isr_effects (s : state) :
  (regs s INTCON3bits_INT1F = 1 ->
     Z.testbit (regs (Isr s) LATE) 2 = true
     /\ trace (Isr s) = trace s ++ [RED_LED_write 1]
     /\ tips (Isr s) = wrap32 (tips s + 1)
     /\ regs (Isr s) INTCON3bits_INT1F = 0
     /\ (forall r : sfr, r <> LATE -> r <> INTCON3bits_INT1F ->
           regs (Isr s) r = regs s r)
     /\ (forall n : Z, n <> 2 ->
           Z.testbit (regs (Isr s) LATE) n = Z.testbit (regs s LATE) n)
     /\ messageCount (Isr s) = messageCount s
     /\ txData (Isr s) = txData s
     /\ batt (Isr s) = batt s
     /\ temp (Isr s) = temp s)
  /\ (regs s INTCON3bits_INT1F <> 1 -> Isr s = s).
Proof.
  split; [|apply Isr_idle].
  intros H. rewrite (Isr_fires s H).
  destruct s as [r ab t mc buf b te tr].
  cbn [RED_LED wr wr_bit set_regs set_tips emit regs adc_busy tips
       messageCount txData batt temp trace Z.eqb].
  rewrite fn_lookup_insert.
  rewrite (fn_lookup_insert_ne _ INTCON3bits_INT1F LATE) by discriminate.
  repeat split.
  - apply Z.setbit_eq. lia.
  - intros x H1 H2.
    rewrite fn_lookup_insert_ne by congruence.
    apply fn_lookup_insert_ne. congruence.
  - intros n Hn. apply Z.setbit_neq; lia.
Qed.

(** ** The cycle *)

Lemma emit_data (e : event) (s : state) :
  regs (emit e s) = regs s /\ tips (emit e s) = tips s
  /\ messageCount (emit e s) = messageCount s
  /\ txData (emit e s) = txData s
  /\ trace (emit e s) = trace s ++ [e].
Proof. destruct s; repeat split. Qed.

Lemma main_cycle_unfold (irq : nat -> Z) (s : state) :
  main_cycle irq s =
  emit SLEEP (disablePeripherals
                (decide_transmit irq (bring_up_and_sample s))).
Proof. reflexivity. Qed.

Lemma disablePeripherals_ports (s : state) :
  let s' := disablePeripherals s in
  regs s' TRISA = 0 /\ regs s' TRISB = 2 /\ regs s' TRISC = 0
  /\ regs s' TRISD = 2 /\ regs s' TRISE = 0
  /\ regs s' LATA = 4 /\ regs s' LATB = 0 /\ regs s' LATC = 0
  /\ regs s' LATD = 8 /\ regs s' LATE = 0
  /\ regs s' INTCON3bits_INT1E = regs s INTCON3bits_INT1E
  /\ regs s' INTCONbits_GIE = regs s INTCONbits_GIE
  /\ regs s' ADCON0bits_ADON = 0.
Proof. destruct s as [r ab t mc buf b te tr]. cbv. repeat split. Qed.

Lemma disablePeripherals_data (s : state) :
  let s' := disablePeripherals s in
  tips s' = tips s /\ messageCount s' = messageCount s
  /\ txData s' = txData s /\ trace s' = trace s.
Proof. destruct s as [r ab t mc buf b te tr]. repeat split. Qed.

(** The bring-down overwrites [LATE], the one register on which the two
    branches of the decision can differ. *)
Lemma disablePeripherals_regs (s1 s2 : state) :
  (forall r : sfr, r <> LATE -> regs s1 r = regs s2 r) ->
  forall r : sfr,
    regs (disablePeripherals s1) r = regs (disablePeripherals s2) r.
Proof.
  intros H r.
  destruct s1 as [r1 ab1 t1 mc1 buf1 b1 te1 tr1].
  destruct s2 as [r2 ab2 t2 mc2 buf2 b2 te2 tr2].
  cbn [regs] in H.
  destruct r; cbv; try reflexivity; apply H; discriminate.
Qed.

Lemma flash_red_led_spec (s : state) :
  let s' := flash_red_led s in
  tips s' = tips s /\ messageCount s' = messageCount s
  /\ txData s' = txData s
  /\ trace s' = trace s ++ blink_pattern
  /\ (forall r : sfr, r <> LATE -> regs s' r = regs s r).
Proof.
  destruct s as [r ab t mc buf b te tr].
  repeat split.
  - cbv -[app]. rewrite <- !app_assoc. reflexivity.
  - intros x Hx. destruct x; try reflexivity. contradiction.
Qed.

Lemma transmitData_other_regs (irq : nat -> Z) (s : state) (r : sfr) :
  r <> LATE -> regs (transmitData irq s) r = regs s r.
Proof.
  intros Hr. rewrite transmitData_regs.
  destruct s as [r0 ab t mc buf b te tr].
  destruct r; try reflexivity. contradiction.
Qed.

Lemma decide_transmit_spec (irq : nat -> Z) (s : state) :
  tips (decide_transmit irq s) = tips s
  /\ (forall r : sfr, r <> LATE -> regs (decide_transmit irq s) r = regs s r).
Proof.
  unfold decide_transmit. destruct (transmit_branch (batt s)).
  - split; [apply transmitData_tips|].
    intros r Hr. apply transmitData_other_regs, Hr.
  - destruct (flash_red_led_spec s) as (H1 & _ & _ & _ & H5).
    split; assumption.
Qed.

Lemma main_cycle_spec (irq : nat -> Z) (s : state) :
  tips (main_cycle irq s) = tips s
  /\ regs (main_cycle irq s) INTCON3bits_INT1E = 1
  /\ regs (main_cycle irq s) INTCONbits_GIE = 1.
Proof.
  rewrite main_cycle_unfold.
  destruct (sample_facts s) as (_ & _ & Ht & _ & _ & _ & HE & HG).
  destruct (decide_transmit_spec irq (bring_up_and_sample s)) as [Dt Dr].
  set (s2 := decide_transmit irq (bring_up_and_sample s)) in *.
  destruct (disablePeripherals_ports s2)
    as (_ & _ & _ & _ & _ & _ & _ & _ & _ & _ & PE & PG & _).
  destruct (disablePeripherals_data s2) as (Pt & _).
  destruct (emit_data SLEEP (disablePeripherals s2)) as (Er & Et & _).
  rewrite Er, Et, Pt, Dt, Ht, PE, PG.
  rewrite (Dr INTCON3bits_INT1E) by discriminate.
  rewrite (Dr INTCONbits_GIE) by discriminate.
  rewrite HE, HG. repeat split.
Qed.

Lemma regs_wr (r : sfr) (v : Z) (s : state) :
  regs (wr r v s) = <[r := v]> (regs s) /\ tips (wr r v s) = tips s.
Proof. destruct s; split; reflexivity. Qed.

Lemma tip_edge_enabled (s : state) :
  regs s INTCON3bits_INT1E = 1 ->
  regs s INTCONbits_GIE = 1 ->
  tips (tip_edge s) = wrap32 (tips s + 1)
  /\ regs (tip_edge s) INTCON3bits_INT1F = 0.
Proof.
  intros HE HG. unfold tip_edge.
  destruct (regs_wr INTCON3bits_INT1F 1 s) as [Er Et].
  rewrite Er.
  rewrite (fn_lookup_insert_ne _ INTCON3bits_INT1F INTCON3bits_INT1E)
    by discriminate.
  rewrite (fn_lookup_insert_ne _ INTCON3bits_INT1F INTCONbits_GIE)
    by discriminate.
  rewrite HE, HG. cbn [Z.eqb Pos.eqb andb].
  assert (H1 : regs (wr INTCON3bits_INT1F 1 s) INTCON3bits_INT1F = 1).
  { rewrite Er. apply fn_lookup_insert. }
  destruct (Isr_counts (wr INTCON3bits_INT1F 1 s) H1) as [Ht Hc].
  rewrite Ht, Hc, Et. split; reflexivity.
Qed.

Lemma tip_edge_masked (s : state) :
  (regs s INTCON3bits_INT1E =? 1) && (regs s INTCONbits_GIE =? 1) = false ->
  tips (tip_edge s) = tips s.
Proof.
  intros H. unfold tip_edge.
  destruct (regs_wr INTCON3bits_INT1F 1 s) as [Er Et].
  rewrite Er.
  rewrite (fn_lookup_insert_ne _ INTCON3bits_INT1F INTCON3bits_INT1E)
    by discriminate.
  rewrite (fn_lookup_insert_ne _ INTCON3bits_INT1F INTCONbits_GIE)
    by discriminate.
  rewrite H. exact Et.
Qed.

(** ** The bring-down procedure *)

(** C5 (as amended).  After [disablePeripherals], for every pin [n] of
    every port: the pin is an output driving low unless it is RB1, RD1,
    RA2 or RD3; RB1 (the tip input) and RD1 (the SPI data input) are
    inputs; RA2 (power switch of the external circuitry) and RD3 (the
    transceiver's select line) are outputs driving high.  The procedure
    does not touch the INT1 enable, which is set at the end of every
    cycle together with the global enable, so a tip edge after the cycle
    runs the handler and counts. *)
Theorem quiesce_pins (irq : nat -> Z) (s : state) (p : port) (n : Z) :
  0 <= n < 8 ->
  let s' := disablePeripherals s in
  ((p, n) <> RB1 -> (p, n) <> RD1 -> (p, n) <> RA2 -> (p, n) <> RD3 ->
     output_low s' p n = true)
  /\ is_input s' port_B 1 = true
  /\ is_input s' port_D 1 = true
  /\ output_high s' port_A 2 = true
  /\ output_high s' port_D 3 = true
  /\ regs s' INTCON3bits_INT1E = regs s INTCON3bits_INT1E
  /\ regs (main_cycle irq s) INTCON3bits_INT1E = 1
  /\ regs (main_cycle irq s) INTCONbits_GIE = 1
  /\ is_input (main_cycle irq s) port_B 1 = true
  /\ tips (tip_edge (main_cycle irq s)) = wrap32 (tips s + 1).
Proof.
  intros Hn s'.
  destruct (disablePeripherals_ports s)
    as (TA & TB & TC & TD & TE & LA & LB & LC & LD & LE & IE & _).
  fold s' in TA, TB, TC, TD, TE, LA, LB, LC, LD, LE, IE.
  destruct (main_cycle_spec irq s) as (Mt & ME & MG).
  split.
  { intros H1 H2 H3 H4. unfold output_low, is_input.
    assert (Hc : n = 0 \/ n = 1 \/ n = 2 \/ n = 3 \/ n = 4 \/ n = 5
                 \/ n = 6 \/ n = 7) by lia.
    unfold RB1, RD1, RA2, RD3 in *.
    destruct p; cbn [TRIS LAT];
      rewrite ?TA, ?TB, ?TC, ?TD, ?TE, ?LA, ?LB, ?LC, ?LD, ?LE;
      repeat (destruct Hc as [-> | Hc]); try subst n;
      try reflexivity; congruence. }
  unfold output_high, is_input. cbn [TRIS LAT].
  rewrite TA, TB, TD, LA, LD.
  do 4 (split; [reflexivity|]).
  split; [exact IE|].
  split; [exact ME|].
  split; [exact MG|].
  split.
  { rewrite main_cycle_unfold.
    destruct (emit_data SLEEP (disablePeripherals
                (decide_transmit irq (bring_up_and_sample s)))) as (Er & _).
    rewrite Er.
    destruct (disablePeripherals_ports
                (decide_transmit irq (bring_up_and_sample s)))
      as (_ & TB' & _).
    rewrite TB'. reflexivity. }
  destruct (tip_edge_enabled (main_cycle irq s) ME MG) as [Ht _].
  rewrite Ht, Mt. reflexivity.
Qed.

(** ** The analogue sampler *)

Lemma adc_finish_spec (s : state) :
  let r := adc_sample (regs s ADCON1bits_PVCFG) (regs s ADCON0bits_CHS)
           mod 1024 in
  let s' := adc_finish s in
  regs s' ADCON0bits_GO_NOT_DONE = 0
  /\ adc_busy s' = 0%nat
  /\ regs s' ADCON1bits_PVCFG = regs s ADCON1bits_PVCFG
  /\ regs s' ADCON0bits_CHS = regs s ADCON0bits_CHS
  /\ read_result s' = regs s' ADRESH * 256 + regs s' ADRESL
  /\ 0 <= read_result s' < 65536
  /\ (regs s ADCON2bits_ADFM = 1 -> read_result s' = r).
Proof.
  intros r s'.
  assert (Hr : 0 <= r < 1024) by (apply Z.mod_pos_bound; lia).
  assert (EH : regs s' ADRESH =
               fst (if regs s ADCON2bits_ADFM =? 1
                    then (r / 256, r mod 256)
                    else (r / 4, (r mod 4) * 64)))
    by (destruct s; reflexivity).
  assert (EL : regs s' ADRESL =
               snd (if regs s ADCON2bits_ADFM =? 1
                    then (r / 256, r mod 256)
                    else (r / 4, (r mod 4) * 64)))
    by (destruct s; reflexivity).
  assert (Hb : 0 <= regs s' ADRESH * 256 + regs s' ADRESL < 65536).
  { rewrite EH, EL.
    pose proof (Z.div_mod r 256 ltac:(lia)).
    pose proof (Z.mod_pos_bound r 256 ltac:(lia)).
    pose proof (Z.div_mod r 4 ltac:(lia)).
    pose proof (Z.mod_pos_bound r 4 ltac:(lia)).
    destruct (regs s ADCON2bits_ADFM =? 1); cbn [fst snd]; lia. }
  assert (Ev : read_result s' = regs s' ADRESH * 256 + regs s' ADRESL).
  { unfold read_result, wrap16. apply Z.mod_small. exact Hb. }
  split; [destruct s; reflexivity|].
  split; [destruct s; reflexivity|].
  split; [destruct s; reflexivity|].
  split; [destruct s; reflexivity|].
  split; [exact Ev|].
  split; [rewrite Ev; exact Hb|].
  intros HF. rewrite Ev, EH, EL, HF. cbn [Z.eqb Pos.eqb fst snd].
  pose proof (Z.div_mod r 256 ltac:(lia)). lia.
Qed.

(** C6 (as amended).  [readTemperature] selects the supply reference and
    channel 1; [readBattery] selects the internal reference and leaves the
    channel selection as it finds it, so it converts channel 0 when it
    follows [setupAtoD], as it does in [main].  Each starts a conversion,
    waits until [GO_NOT_DONE] reads zero, and returns
    [ADRESH * 256 + ADRESL], a value below 65536. *)
Theorem sampler_contract (s : state) :
  let rb := readBattery s in
  let rt := readTemperature s in
  regs (snd rb) ADCON1bits_PVCFG = 2
  /\ regs (snd rb) ADCON0bits_CHS = regs s ADCON0bits_CHS
  /\ regs (snd rb) ADCON0bits_GO_NOT_DONE = 0
  /\ adc_busy (snd rb) = 0%nat
  /\ fst rb = regs (snd rb) ADRESH * 256 + regs (snd rb) ADRESL
  /\ 0 <= fst rb < 65536
  /\ (regs s ADCON2bits_ADFM = 1 ->
      fst rb = adc_sample 2 (regs s ADCON0bits_CHS) mod 1024)
  /\ regs (snd rt) ADCON1bits_PVCFG = 0
  /\ regs (snd rt) ADCON0bits_CHS = 1
  /\ regs (snd rt) ADCON0bits_GO_NOT_DONE = 0
  /\ adc_busy (snd rt) = 0%nat
  /\ fst rt = regs (snd rt) ADRESH * 256 + regs (snd rt) ADRESL
  /\ 0 <= fst rt < 65536
  /\ (regs s ADCON2bits_ADFM = 1 -> fst rt = adc_sample 0 1 mod 1024)
  /\ regs (setupAtoD s) ADCON0bits_CHS = 0
  /\ batt (bring_up_and_sample s) = adc_sample 2 0 mod 1024
  /\ temp (bring_up_and_sample s) = adc_sample 0 1 mod 1024.
Proof.
  intros rb rt.
  assert (Eb : rb = (read_result (snd rb), snd rb)
               /\ snd rb = adc_finish (start_conversion
                             (wr ADCON1bits_PVCFG 2 s))).
  { unfold rb. rewrite readBattery_spec. split; reflexivity. }
  assert (Et : rt = (read_result (snd rt), snd rt)
               /\ snd rt = adc_finish (start_conversion
                             (wr ADCON0bits_CHS 1
                                (wr ADCON1bits_PVCFG 0 s)))).
  { unfold rt. rewrite readTemperature_spec. split; reflexivity. }
  destruct Eb as [Eb1 Eb2]. destruct Et as [Et1 Et2].
  clearbody rb rt.
  rewrite Eb1, Et1. cbn [fst snd]. rewrite Eb2, Et2.
  set (xb := start_conversion (wr ADCON1bits_PVCFG 2 s)).
  set (xt := start_conversion
               (wr ADCON0bits_CHS 1 (wr ADCON1bits_PVCFG 0 s))).
  assert (Xb : regs xb ADCON1bits_PVCFG = 2
               /\ regs xb ADCON0bits_CHS = regs s ADCON0bits_CHS
               /\ regs xb ADCON2bits_ADFM = regs s ADCON2bits_ADFM)
    by (destruct s; repeat split).
  assert (Xt : regs xt ADCON1bits_PVCFG = 0
               /\ regs xt ADCON0bits_CHS = 1
               /\ regs xt ADCON2bits_ADFM = regs s ADCON2bits_ADFM)
    by (destruct s; repeat split).
  destruct Xb as (Xb1 & Xb2 & Xb3). destruct Xt as (Xt1 & Xt2 & Xt3).
  clearbody xb xt.
  destruct (adc_finish_spec xb) as (B1 & B2 & B3 & B4 & B5 & B6 & B7).
  destruct (adc_finish_spec xt) as (T1 & T2 & T3 & T4 & T5 & T6 & T7).
  rewrite Xb1, Xb2, Xb3 in *. rewrite Xt1, Xt2, Xt3 in *.
  destruct (sample_facts s) as (Sb & St & _).
  split; [exact B3|]. split; [exact B4|]. split; [exact B1|].
  split; [exact B2|]. split; [exact B5|]. split; [exact B6|].
  split; [exact B7|].
  split; [exact T3|]. split; [exact T4|]. split; [exact T1|].
  split; [exact T2|]. split; [exact T5|]. split; [exact T6|].
  split; [exact T7|].
  split; [destruct s; reflexivity|].
  split; [exact Sb | exact St].
Qed.

(** ** The under-voltage branch *)

(** C7.  When the battery reading of the cycle is below the threshold,
    the cycle consists of the bring-up, the blink pattern, the bring-down
    and [SLEEP()]: no transceiver action occurs, [messageCount] and the
    transmit buffer are as before, and the bring-down leaves the same
    registers, again followed by [SLEEP()], as it does after the transmit
    branch taken from the same readings. *)
Theorem undervoltage_skips (irq : nat -> Z) (s : state) :
  batt (bring_up_and_sample s) < BATT_UVLO_ATOD ->
  let s1 := bring_up_and_sample s in
  let s' := main_cycle irq s in
  s' = emit SLEEP (disablePeripherals (flash_red_led s1))
  /\ trace s' = trace s ++ [USART2_Start; delay_ms 5] ++ blink_pattern
                ++ [SLEEP]
  /\ forallb (fun e => negb (is_LoRa e))
             (drop (length (trace s)) (trace s')) = true
  /\ messageCount s' = messageCount s
  /\ txData s' = txData s
  /\ (forall irq' : nat -> Z,
        let t' := emit SLEEP (disablePeripherals (transmitData irq' s1)) in
        (forall r : sfr, regs s' r = regs t' r)
        /\ tips s' = tips t'
        /\ last (trace s') = Some SLEEP
        /\ last (trace t') = Some SLEEP).
Proof.
  intros Hb s1 s'.
  assert (E : s' = emit SLEEP (disablePeripherals (flash_red_led s1))).
  { unfold s'. rewrite main_cycle_unfold. fold s1.
    unfold decide_transmit, transmit_branch.
    assert (Hf : (batt s1 >? BATT_UVLO_ATOD) = false).
    { rewrite Z.gtb_ltb. apply Z.ltb_ge. unfold s1. lia. }
    rewrite Hf. reflexivity. }
  clearbody s'. subst s'.
  destruct (sample_facts s) as (_ & _ & St & Sm & Sx & Str & _).
  fold s1 in St, Sm, Sx, Str.
  destruct (flash_red_led_spec s1) as (Ft & Fm & Fx & Ftr & Fr).
  destruct (disablePeripherals_data (flash_red_led s1))
    as (Dt & Dm & Dx & Dtr).
  destruct (emit_data SLEEP (disablePeripherals (flash_red_led s1)))
    as (Er & Et & Em & Ex & Etr).
  assert (Htr : trace (emit SLEEP (disablePeripherals (flash_red_led s1)))
                = trace s ++ [USART2_Start; delay_ms 5] ++ blink_pattern
                  ++ [SLEEP]).
  { rewrite Etr, Dtr, Ftr, Str. rewrite <- !app_assoc. reflexivity. }
  split; [reflexivity|].
  split; [exact Htr|].
  split; [rewrite Htr, drop_app_length; reflexivity|].
  split; [rewrite Em, Dm, Fm; exact Sm|].
  split; [rewrite Ex, Dx, Fx; exact Sx|].
  intros irq' t'.
  destruct (emit_data SLEEP (disablePeripherals (transmitData irq' s1)))
    as (Er' & Et' & _ & _ & Etr').
  destruct (disablePeripherals_data (transmitData irq' s1)) as (Dt' & _).
  fold t' in Er', Et', Etr'. clearbody t'.
  split.
  { intros r. rewrite Er, Er'. apply disablePeripherals_regs.
    intros q Hq. rewrite (Fr q Hq).
    symmetry. apply transmitData_other_regs, Hq. }
  split.
  { rewrite Et, Et', Dt, Dt', Ft. symmetry. apply transmitData_tips. }
  split.
  { rewrite Etr. apply last_snoc. }
  rewrite Etr'. apply last_snoc.
Qed.

(** ** The tip counter *)

Lemma conversion_tips (s : state) :
  tips (adc_finish (start_conversion s)) = tips s.
Proof. destruct s; reflexivity. Qed.

Lemma tips_unqualified (a : action) (s : state) :
  qualifying a s = false -> tips (perform a s) = tips s.
Proof.
  destruct a; cbn [perform qualifying]; intros H.
  - destruct s; reflexivity.
  - destruct s; reflexivity.
  - destruct s; reflexivity.
  - rewrite readBattery_spec. cbn zeta. cbn [snd].
    rewrite conversion_tips. apply regs_wr.
  - rewrite readTemperature_spec. cbn zeta. cbn [snd].
    rewrite conversion_tips.
    destruct (regs_wr ADCON0bits_CHS 1 (wr ADCON1bits_PVCFG 0 s)) as [_ E].
    rewrite E. apply regs_wr.
  - apply transmitData_tips.
  - destruct s; reflexivity.
  - destruct s; reflexivity.
  - destruct (main_cycle_spec irq s) as [E _]. exact E.
  - rewrite Isr_idle; [reflexivity|].
    intros E. rewrite E in H. discriminate.
  - apply tip_edge_masked, H.
Qed.

Lemma tips_qualified (a : action) (s : state) :
  qualifying a s = true ->
  tips (perform a s) = wrap32 (tips s + 1)
  /\ regs (perform a s) INTCON3bits_INT1F = 0.
Proof.
  destruct a; cbn [perform qualifying]; intros H; try discriminate.
  - apply Z.eqb_eq in H. apply Isr_counts, H.
  - apply andb_true_iff in H. destruct H as [HE HG].
    apply Z.eqb_eq in HE. apply Z.eqb_eq in HG.
    apply tip_edge_enabled; assumption.
Qed.

Lemma tip_events_nonneg (acts : list action) :
  forall s : state, 0 <= tip_events acts s.
Proof.
  induction acts as [|a acts IH]; intros s; cbn [tip_events].
  - lia.
  - specialize (IH (perform a s)). destruct (qualifying a s); lia.
Qed.

Lemma run_tips_wrapped (acts : list action) :
  forall s : state,
    wrap32 (tips (run acts s)) = wrap32 (tips s + tip_events acts s).
Proof.
  induction acts as [|a acts IH]; intros s.
  - cbn. f_equal. lia.
  - change (run (a :: acts) s) with (run acts (perform a s)).
    cbn [tip_events]. rewrite IH.
    destruct (qualifying a s) eqn:Q.
    + destruct (tips_qualified a s Q) as [Ht _]. rewrite Ht.
      unfold wrap32. rewrite Z.add_mod_idemp_l by lia. f_equal. lia.
    + rewrite (tips_unqualified a s Q). f_equal.
Qed.

Lemma run_tips_range (acts : list action) :
  forall s : state,
    0 <= tips s < 4294967296 -> 0 <= tips (run acts s) < 4294967296.
Proof.
  induction acts as [|a acts IH]; intros s Hs.
  - exact Hs.
  - change (run (a :: acts) s) with (run acts (perform a s)).
    apply IH. destruct (qualifying a s) eqn:Q.
    + destruct (tips_qualified a s Q) as [Ht _]. rewrite Ht.
      apply Z.mod_pos_bound. lia.
    + rewrite (tips_unqualified a s Q). exact Hs.
Qed.

(** C8.  The counter is zero at power-on.  Of all the functions of the
    program only the handler changes it: entered with the INT1 flag
    raised, it adds one (in 32-bit unsigned arithmetic) and clears the
    flag; every other call, and a handler entry without the flag, leaves
    it as it is.  Over any sequence of calls and tip edges the counter is
    therefore its initial value plus the number of qualifying handler
    entries, modulo 2^32, and below that bound it never goes down. *)
Theorem tip_counter_invariant :
  (forall (r : sfr -> Z) (buf : list Z), tips (power_on r buf) = 0)
  /\ (forall (a : action) (s : state),
        qualifying a s = false -> tips (perform a s) = tips s)
  /\ (forall (a : action) (s : state),
        qualifying a s = true ->
        tips (perform a s) = wrap32 (tips s + 1)
        /\ regs (perform a s) INTCON3bits_INT1F = 0)
  /\ (forall s : state,
        regs s INTCON3bits_INT1F = 1 -> 0 <= tips s < 4294967295 ->
        tips (Isr s) = tips s + 1
        /\ regs (Isr s) INTCON3bits_INT1F = 0)
  /\ (forall (acts : list action) (s : state),
        0 <= tips s < 4294967296 ->
        tips (run acts s) = wrap32 (tips s + tip_events acts s))
  /\ (forall (acts : list action) (s : state),
        0 <= tips s ->
        tips s + tip_events acts s < 4294967296 ->
        tips (run acts s) = tips s + tip_events acts s
        /\ tips s <= tips (run acts s)).
Proof.
  assert (Hrun : forall (acts : list action) (s : state),
             0 <= tips s < 4294967296 ->
             tips (run acts s) = wrap32 (tips s + tip_events acts s)).
  { intros acts s Hs. rewrite <- run_tips_wrapped.
    unfold wrap32. symmetry. apply Z.mod_small.
    apply run_tips_range, Hs. }
  split; [reflexivity|].
  split; [exact tips_unqualified|].
  split; [exact tips_qualified|].
  split.
  { intros s Hf Hs.
    destruct (Isr_counts s Hf) as [Ht Hc].
    split; [|exact Hc].
    rewrite Ht. unfold wrap32. apply Z.mod_small. lia. }
  split; [exact Hrun|].
  intros acts s H0 Hlt.
  pose proof (tip_events_nonneg acts s) as Hn.
  rewrite Hrun by lia.
  unfold wrap32. rewrite Z.mod_small by lia. lia.
Qed.

(** * Further properties of the cycle *)

(** ** Registers across bring-up and bring-down *)

Lemma disablePeripherals_keeps (s : state) (r : sfr) :
  kept_by_bring_down r = true -> regs (disablePeripherals s) r = regs s r.
Proof.
  intros H. destruct s as [r0 ab t mc buf b te tr].
  destruct r; try discriminate H; reflexivity.
Qed.

Lemma disablePeripherals_overwrites (s1 s2 : state) (r : sfr) :
  kept_by_bring_down r = false ->
  regs (disablePeripherals s1) r = regs (disablePeripherals s2) r.
Proof.
  intros H.
  destruct s1 as [r1 ab1 t1 mc1 buf1 b1 te1 tr1].
  destruct s2 as [r2 ab2 t2 mc2 buf2 b2 te2 tr2].
  destruct r; try discriminate H; reflexivity.
Qed.

Lemma sample_kept (s1 s2 : state) (r : sfr) :
  kept_by_bring_down r = true ->
  r <> INTCON2bits_INTEDG1 ->
  regs (bring_up_and_sample s1) r = regs (bring_up_and_sample s2) r.
Proof.
  intros H Hr. rewrite !sample_unfold.
  destruct s1 as [r1 ab1 t1 mc1 buf1 b1 te1 tr1].
  destruct s2 as [r2 ab2 t2 mc2 buf2 b2 te2 tr2].
  destruct r; try discriminate H; try contradiction;
    cbv -[Z.modulo Z.div Z.mul Z.add]; reflexivity.
Qed.

Lemma sample_interrupt_regs (s : state) :
  regs (bring_up_and_sample s) INTCON3bits_INT1F = 0
  /\ regs (bring_up_and_sample s) INTCON2bits_INTEDG1
     = regs s INTCON2bits_INTEDG1
  /\ regs (bring_up_and_sample s) PMD1 = regs s PMD1.
Proof.
  rewrite sample_unfold. destruct s as [r ab t mc buf b te tr].
  repeat split.
Qed.

Lemma main_cycle_kept (irq : nat -> Z) (s : state) (r : sfr) :
  kept_by_bring_down r = true ->
  regs (main_cycle irq s) r = regs (bring_up_and_sample s) r.
Proof.
  intros H. rewrite main_cycle_unfold.
  destruct (emit_data SLEEP (disablePeripherals
              (decide_transmit irq (bring_up_and_sample s)))) as (Er & _).
  rewrite Er. rewrite disablePeripherals_keeps by exact H.
  apply decide_transmit_spec. intros E. rewrite E in H. discriminate H.
Qed.

(** X2.  One pass of the cycle fixes every register and field except the
    edge select, whatever they held before, whichever branch is taken and
    whatever the transceiver answers; with the edge select written once
    by [main], the whole register file after a cycle is independent of
    its power-on contents. *)
Theorem cycle_fixes_registers
  (irq1 irq2 : nat -> Z) (s1 s2 : state) (r : sfr) :
  (r <> INTCON2bits_INTEDG1 ->
     regs (main_cycle irq1 s1) r = regs (main_cycle irq2 s2) r)
  /\ regs (main_cycle irq1 (main_init s1)) r
     = regs (main_cycle irq2 (main_init s2)) r.
Proof.
  assert (G : forall (i1 i2 : nat -> Z) (x1 x2 : state),
             r <> INTCON2bits_INTEDG1 ->
             regs (main_cycle i1 x1) r = regs (main_cycle i2 x2) r).
  { intros i1 i2 x1 x2 Hr.
    destruct (kept_by_bring_down r) eqn:K.
    - rewrite !main_cycle_kept by exact K. apply sample_kept; assumption.
    - rewrite !main_cycle_unfold.
      destruct (emit_data SLEEP (disablePeripherals
                  (decide_transmit i1 (bring_up_and_sample x1))))
        as (E1 & _).
      destruct (emit_data SLEEP (disablePeripherals
                  (decide_transmit i2 (bring_up_and_sample x2))))
        as (E2 & _).
      rewrite E1, E2. apply disablePeripherals_overwrites, K. }
  split; [apply G|].
  destruct (sfr_eq_dec r INTCON2bits_INTEDG1) as [-> | Hr].
  - rewrite !main_cycle_kept by reflexivity.
    destruct (sample_interrupt_regs (main_init s1)) as (_ & E1 & _).
    destruct (sample_interrupt_regs (main_init s2)) as (_ & E2 & _).
    rewrite E1, E2. destruct s1, s2; reflexivity.
  - apply G, Hr.
Qed.


(** X11.  The bring-down sets [PMD1] to 0xFF and no function of the
    program writes it again: it stays 0xFF over any further calls and
    tip edges, while the next bring-up does clear the [UART2MD], [SPI2MD]
    and [ADCMD] disable bits. *)
Theorem PMD1_stays_disabled (acts : list action) (s : state) :
  regs (disablePeripherals s) PMD1 = 0xFF
  /\ regs (run acts (disablePeripherals s)) PMD1 = 0xFF
  /\ regs (configureIO (disablePeripherals s)) PMD0bits_UART2MD = 0
  /\ regs (configureIO (disablePeripherals s)) PMD0bits_SPI2MD = 0
  /\ regs (configureIO (disablePeripherals s)) PMD2 = 0xFE.
Proof.
  assert (P : forall (a : action) (x : state),
             regs x PMD1 = 0xFF -> regs (perform a x) PMD1 = 0xFF).
  { intros a x Hx. destruct a; cbn [perform].
    - rewrite <- Hx. destruct x; reflexivity.
    - rewrite <- Hx. destruct x; reflexivity.
    - rewrite <- Hx. destruct x; reflexivity.
    - rewrite readBattery_spec. cbn zeta. cbn [snd].
      rewrite <- Hx. destruct x; reflexivity.
    - rewrite readTemperature_spec. cbn zeta. cbn [snd].
      rewrite <- Hx. destruct x; reflexivity.
    - rewrite transmitData_other_regs by discriminate. exact Hx.
    - destruct (flash_red_led_spec x) as (_ & _ & _ & _ & Fr).
      rewrite Fr by discriminate. exact Hx.
    - destruct x; reflexivity.
    - rewrite main_cycle_unfold.
      destruct (emit_data SLEEP (disablePeripherals
                  (decide_transmit irq (bring_up_and_sample x))))
        as (Er & _).
      rewrite Er.
      destruct (decide_transmit irq (bring_up_and_sample x)); reflexivity.
    - unfold Isr. destruct (regs x INTCON3bits_INT1F =? 1); [|exact Hx].
      rewrite <- Hx. destruct x; reflexivity.
    - unfold tip_edge, Isr.
      rewrite <- Hx.
      destruct x as [r ab t mc buf b te tr].
      cbn [wr set_regs regs].
      destruct ((<[INTCON3bits_INT1F:=1]> r INTCON3bits_INT1E =? 1)
                && (<[INTCON3bits_INT1F:=1]> r INTCONbits_GIE =? 1));
        [|reflexivity].
      destruct (<[INTCON3bits_INT1F:=1]> r INTCON3bits_INT1F =? 1);
        reflexivity. }
  assert (R : forall (l : list action) (x : state),
             regs x PMD1 = 0xFF -> regs (run l x) PMD1 = 0xFF).
  { induction l as [|a l IH]; intros x Hx; [exact Hx|].
    change (run (a :: l) x) with (run l (perform a x)).
    apply IH, P, Hx. }
  assert (D : regs (disablePeripherals s) PMD1 = 0xFF)
    by (destruct s; reflexivity).
  split; [exact D|].
  split; [apply R, D|].
  destruct s as [r ab t mc buf b te tr]. repeat split.
Qed.

(** ** Pins across the bring-up *)

Lemma bring_up_ports (s : state) :
  let s' := setupAtoD (configureIO s) in
  regs s' TRISA = Z.setbit (Z.setbit (Z.clearbit (regs s TRISA) 2) 0) 1
  /\ regs s' TRISB = Z.setbit (regs s TRISB) 1
  /\ regs s' TRISC = regs s TRISC
  /\ regs s' TRISD = regs s TRISD
  /\ regs s' TRISE = Z.clearbit (Z.clearbit (regs s TRISE) 1) 2
  /\ regs s' LATA = Z.clearbit (regs s LATA) 2
  /\ regs s' LATB = regs s LATB
  /\ regs s' LATC = regs s LATC
  /\ regs s' LATD = regs s LATD
  /\ regs s' LATE = regs s LATE.
Proof. destruct s as [r ab t mc buf b te tr]. repeat split. Qed.

Ltac bits :=
  rewrite ?Z.setbit_eqb, ?Z.clearbit_eqb by lia;
  cbn [Z.eqb Pos.eqb negb orb andb];
  rewrite ?andb_true_r, ?andb_false_r, ?orb_true_r, ?orb_false_r;
  try reflexivity.

(** X12.  The bring-up ([configureIO] followed by [setupAtoD]) makes RA0,
    RA1 and RB1 inputs and RA2, RE1 and RE2 outputs, with RA2 driving low;
    it changes the direction of no other pin and the latch of no pin
    other than RA2. *)
Theorem bring_up_pins (s : state) (p : port) (n : Z) :
  0 <= n < 8 ->
  let s' := setupAtoD (configureIO s) in
  is_input s' port_A 0 = true
  /\ is_input s' port_A 1 = true
  /\ is_input s' port_B 1 = true
  /\ output_low s' port_A 2 = true
  /\ is_input s' port_E 1 = false
  /\ is_input s' port_E 2 = false
  /\ ((p, n) <> RA0 -> (p, n) <> RA1 -> (p, n) <> RA2 -> (p, n) <> RB1 ->
      (p, n) <> RE1 -> (p, n) <> RE2 ->
      is_input s' p n = is_input s p n)
  /\ ((p, n) <> RA2 ->
      Z.testbit (regs s' (LAT p)) n = Z.testbit (regs s (LAT p)) n).
Proof.
  intros Hn s'.
  destruct (bring_up_ports s)
    as (TA & TB & TC & TD & TE & LA & LB & LC & LD & LE).
  fold s' in TA, TB, TC, TD, TE, LA, LB, LC, LD, LE.
  unfold output_low, is_input. cbn [TRIS LAT].
  rewrite TA, TB, TE, LA.
  assert (Hc : n = 0 \/ n = 1 \/ n = 2 \/ n = 3 \/ n = 4 \/ n = 5
               \/ n = 6 \/ n = 7) by lia.
  split; [bits|]. split; [bits|]. split; [bits|]. split; [bits|].
  split; [bits|]. split; [bits|].
  split.
  - intros H0 H1 H2 H3 H4 H5. unfold RA0, RA1, RA2, RB1, RE1, RE2 in *.
    destruct p; cbn [TRIS]; rewrite ?TA, ?TB, ?TC, ?TD, ?TE;
      try reflexivity;
      repeat (destruct Hc as [-> | Hc]); try subst n;
      try congruence; bits.
  - intros H2. unfold RA2 in *.
    destruct p; cbn [LAT]; rewrite ?LA, ?LB, ?LC, ?LD, ?LE;
      try reflexivity.
    repeat (destruct Hc as [-> | Hc]); try subst n;
      try congruence; bits.
Qed.

(** ** The trace of a cycle *)

Lemma LoRa_events_app (t1 t2 : list event) :
  LoRa_events (t1 ++ t2) = LoRa_events t1 ++ LoRa_events t2.
Proof.
  induction t1 as [|e t1 IH]; [reflexivity|].
  cbn [app LoRa_events]. rewrite IH.
  destruct (is_LoRa e); reflexivity.
Qed.

Lemma total_delay_app (t1 t2 : list event) :
  total_delay (t1 ++ t2) = total_delay t1 + total_delay t2.
Proof.
  induction t1 as [|e t1 IH]; [reflexivity|].
  cbn [app total_delay]. rewrite IH. destruct e; lia.
Qed.

Lemma count_polls_app (t1 t2 : list event) :
  count_polls (t1 ++ t2) = (count_polls t1 + count_polls t2)%nat.
Proof.
  induction t1 as [|e t1 IH]; [reflexivity|].
  cbn [app count_polls]. rewrite IH. destruct e; reflexivity.
Qed.

Lemma poll_trace_bounds (irq : nat -> Z) (n : nat) :
  forall j : nat,
    (count_polls (poll_trace irq n j) <= n)%nat
    /\ (n <> 0%nat -> (1 <= count_polls (poll_trace irq n j))%nat)
    /\ 0 <= total_delay (poll_trace irq n j) <= 10 * Z.of_nat n
    /\ total_delay (poll_trace irq n j)
       <= 10 * Z.of_nat (count_polls (poll_trace irq n j)).
Proof.
  induction n as [|n IH]; intros j.
  - cbn. repeat split; lia.
  - cbn [poll_trace]. destruct (wrap8 (irq j) >? 0).
    + cbn [count_polls total_delay]. repeat split; lia.
    + cbn [count_polls total_delay].
      destruct (IH (S j)) as (H1 & _ & H3 & H4).
      repeat split; lia.
Qed.

Lemma cycle_trace (irq : nat -> Z) (s : state) :
  let s1 := bring_up_and_sample s in
  trace (main_cycle irq s) =
  trace s ++ [USART2_Start; delay_ms 5]
  ++ (if transmit_branch (batt s1)
      then tx_prologue (txData (add_crc (fill_frame s1)))
           ++ poll_trace irq 50 0 ++ tx_epilogue
      else blink_pattern)
  ++ [SLEEP].
Proof.
  intros s1. rewrite main_cycle_unfold. fold s1.
  destruct (emit_data SLEEP (disablePeripherals (decide_transmit irq s1)))
    as (_ & _ & _ & _ & Etr).
  destruct (disablePeripherals_data (decide_transmit irq s1))
    as (_ & _ & _ & Dtr).
  destruct (sample_facts s) as (_ & _ & _ & _ & _ & Str & _).
  fold s1 in Str.
  rewrite Etr, Dtr. unfold decide_transmit.
  destruct (transmit_branch (batt s1)).
  - rewrite transmitData_trace, Str. rewrite <- !app_assoc. reflexivity.
  - destruct (flash_red_led_spec s1) as (_ & _ & _ & Ftr & _).
    rewrite Ftr, Str. rewrite <- !app_assoc. reflexivity.
Qed.

(** X5.  Whatever the transceiver answers, [transmitData] reads the
    status flags at least once and at most 50 times, and its blocking
    delays add up to at most 10 ms per read plus the closing 10 ms. *)
Theorem polling_is_bounded (irq : nat -> Z) (s : state) :
  let new := drop (length (trace s)) (trace (transmitData irq s)) in
  (1 <= count_polls new <= 50)%nat
  /\ 10 <= total_delay new <= 10 * Z.of_nat (count_polls new) + 10
  /\ total_delay new <= 510.
Proof.
  intros new.
  assert (E : new = tx_prologue (txData (add_crc (fill_frame s)))
                    ++ poll_trace irq 50 0 ++ tx_epilogue).
  { unfold new. rewrite transmitData_trace. apply drop_app_length. }
  clearbody new. subst new.
  generalize (txData (add_crc (fill_frame s))). intros f.
  rewrite !count_polls_app, !total_delay_app.
  destruct (poll_trace_bounds irq 50 0) as (H1 & H2 & H3 & H4).
  assert (H2' : (1 <= count_polls (poll_trace irq 50 0))%nat)
    by (apply H2; discriminate).
  change (count_polls (tx_prologue f)) with 0%nat.
  change (count_polls tx_epilogue) with 0%nat.
  change (total_delay (tx_prologue f)) with 0.
  change (total_delay tx_epilogue) with 10.
  repeat split; lia.
Qed.

(** X4.  A cycle that skips transmission blocks for exactly 1805 ms of
    delays (5 ms settling and six 300 ms blink phases); a cycle that
    transmits blocks for between 15 and 515 ms. *)
Theorem cycle_delay (irq : nat -> Z) (s : state) :
  let new := drop (length (trace s)) (trace (main_cycle irq s)) in
  (transmit_branch (batt (bring_up_and_sample s)) = false ->
     total_delay new = 1805)
  /\ (transmit_branch (batt (bring_up_and_sample s)) = true ->
     15 <= total_delay new <= 515).
Proof.
  intros new.
  assert (E : new = drop (length (trace s)) (trace (main_cycle irq s)))
    by reflexivity.
  rewrite cycle_trace in E. rewrite drop_app_length in E.
  clearbody new. subst new.
  split; intros Hb; rewrite Hb.
  - reflexivity.
  - generalize (txData (add_crc (fill_frame (bring_up_and_sample s)))).
    intros f. rewrite !total_delay_app.
    destruct (poll_trace_bounds irq 50 0) as (_ & _ & H3 & _).
    change (total_delay [USART2_Start; delay_ms 5]) with 5.
    change (total_delay (tx_prologue f)) with 0.
    change (total_delay tx_epilogue) with 10.
    change (total_delay [SLEEP]) with 0.
    lia.
Qed.

(** X3.  In every cycle the last action before [SLEEP()] that addresses
    the transceiver, if there is one, is the sleep command: a cycle that
    skips transmission never addresses the transceiver, and a cycle that
    transmits ends its dialogue with [LoRaSleepMode], whatever the
    status reads return. *)
Theorem radio_asleep_at_SLEEP (irq : nat -> Z) (s : state) :
  let new := drop (length (trace s)) (trace (main_cycle irq s)) in
  last new = Some SLEEP
  /\ (transmit_branch (batt (bring_up_and_sample s)) = false ->
      LoRa_events new = [])
  /\ (transmit_branch (batt (bring_up_and_sample s)) = true ->
      last (LoRa_events new) = Some LoRaSleepMode
      /\ head (LoRa_events new) = Some (LoRaStart TX_FREQ_kHz SYNC_WORD)).
Proof.
  intros new.
  assert (E : new = drop (length (trace s)) (trace (main_cycle irq s)))
    by reflexivity.
  rewrite cycle_trace in E. rewrite drop_app_length in E.
  clearbody new. subst new.
  split.
  { rewrite !app_assoc. apply last_snoc. }
  split; intros Hb; rewrite Hb.
  - reflexivity.
  - generalize (txData (add_crc (fill_frame (bring_up_and_sample s)))).
    intros f. rewrite !LoRa_events_app.
    change (LoRa_events [USART2_Start; delay_ms 5]) with (@nil event).
    change (LoRa_events [SLEEP]) with (@nil event).
    change (LoRa_events tx_epilogue) with [LoRaSleepMode].
    rewrite app_nil_r. cbn [app].
    split.
    + rewrite app_assoc. apply last_snoc.
    + reflexivity.
Qed.

(** ** Frames and counters across cycles *)

(** X6.  Every one of the 50 bytes of the buffer after [transmitData] is
    in the range 0..255, whatever the buffer held before and whatever the
    values of the counters and readings. *)
Theorem frame_holds_bytes (irq : nat -> Z) (s : state) :
  length (txData s) = 50%nat ->
  Forall (fun b => 0 <= b < 256) (txData (transmitData irq s)).
Proof.
  intros H. rewrite transmitData_txData, frame_bytes by exact H.
  pose proof (calcCRC_range (fill_frame s)) as Hc.
  generalize dependent (calcCRC (fill_frame s)). intros c Hc.
  unfold payload, be32, be16, address. cbn [app repeat].
  repeat (apply List.Forall_cons;
          [cbv beta;
           first [ lia
                 | apply Z.mod_pos_bound; lia
                 | split; [ apply Z.div_pos; lia
                          | apply Z.div_lt_upper_bound; lia ] ] |]).
  apply List.Forall_nil.
Qed.

Lemma main_cycle_data (irq : nat -> Z) (s : state) :
  let s1 := bring_up_and_sample s in
  messageCount (main_cycle irq s)
    = (if transmit_branch (batt s1)
       then wrap32 (messageCount s + 1) else messageCount s)
  /\ txData (main_cycle irq s)
    = (if transmit_branch (batt s1)
       then txData (add_crc (fill_frame s1)) else txData s).
Proof.
  intros s1. rewrite main_cycle_unfold. fold s1.
  destruct (emit_data SLEEP (disablePeripherals (decide_transmit irq s1)))
    as (_ & _ & Em & Ex & _).
  destruct (disablePeripherals_data (decide_transmit irq s1))
    as (_ & Dm & Dx & _).
  destruct (sample_facts s) as (_ & _ & _ & Sm & Sx & _).
  fold s1 in Sm, Sx.
  rewrite Em, Ex, Dm, Dx. unfold decide_transmit.
  destruct (transmit_branch (batt s1)).
  - rewrite transmitData_messageCount, transmitData_txData, Sm.
    split; reflexivity.
  - destruct (flash_red_led_spec s1) as (_ & Fm & Fx & _).
    rewrite Fm, Fx, Sm, Sx. split; reflexivity.
Qed.

Lemma transmit_branch_above (b : Z) :
  500 < b -> transmit_branch b = true.
Proof.
  intros H. unfold transmit_branch. change BATT_UVLO_ATOD with 500.
  apply Z.gtb_lt. lia.
Qed.

Lemma cycle_frame (irq : nat -> Z) (s : state) :
  length (txData s) = 50%nat ->
  500 < adc_sample 2 0 mod 1024 ->
  exists lo hi : Z,
    txData (main_cycle irq s)
    = payload (messageCount s) (adc_sample 2 0 mod 1024)
        (adc_sample 0 1 mod 1024) (tips s) ++ [lo; hi]
    /\ messageCount (main_cycle irq s) = wrap32 (messageCount s + 1)
    /\ In (LoRaTXData (txData (main_cycle irq s)) 50)
          (trace (main_cycle irq s)).
Proof.
  intros Hlen Hb.
  destruct (sample_facts s) as (Sb & St & Stp & Sm & Sx & _).
  destruct (main_cycle_data irq s) as [Em Ex].
  pose proof (cycle_trace irq s) as Etr. cbn zeta in Etr, Em, Ex.
  assert (Hbr : transmit_branch (batt (bring_up_and_sample s)) = true).
  { apply transmit_branch_above. rewrite Sb. exact Hb. }
  rewrite Hbr in Em, Ex, Etr.
  assert (Hl : length (txData (bring_up_and_sample s)) = 50%nat)
    by (rewrite Sx; exact Hlen).
  pose proof (frame_bytes (bring_up_and_sample s) Hl) as Ef.
  rewrite Sb, St, Stp, Sm in Ef.
  exists (calcCRC (fill_frame (bring_up_and_sample s)) mod 256),
         (calcCRC (fill_frame (bring_up_and_sample s)) / 256).
  split; [rewrite Ex; exact Ef|].
  split; [exact Em|].
  rewrite Etr, Ex.
  apply in_or_app. right. apply in_or_app. right.
  apply in_or_app. left. apply in_or_app. left.
  unfold tx_prologue. do 3 right. left. reflexivity.
Qed.

(** X7.  In a cycle whose battery conversion is above 500, the frame
    handed to the transceiver is the buffer as the cycle leaves it; its
    bytes 0-47 are the layout filled with the message count and tip
    count at entry and with the two conversions of this very cycle, so
    its battery field decodes to a value above 500 and below 1024. *)
Theorem frame_reports_cycle_readings (irq : nat -> Z) (s : state) :
  length (txData s) = 50%nat ->
  500 < adc_sample 2 0 mod 1024 ->
  let f := txData (main_cycle irq s) in
  In (LoRaTXData f 50) (trace (main_cycle irq s))
  /\ length f = 50%nat
  /\ take 48 f = payload (messageCount s) (adc_sample 2 0 mod 1024)
                   (adc_sample 0 1 mod 1024) (tips s)
  /\ be_value (take 2 (drop 16 f)) = adc_sample 2 0 mod 1024
  /\ 500 < be_value (take 2 (drop 16 f)) < 1024
  /\ be_value (take 2 (drop 18 f)) = adc_sample 0 1 mod 1024.
Proof.
  intros Hlen Hb f.
  destruct (cycle_frame irq s Hlen Hb) as (lo & hi & Ef & _ & Hin).
  fold f in Ef, Hin. clearbody f. subst f.
  assert (Rb : 0 <= adc_sample 2 0 mod 1024 < 1024)
    by (apply Z.mod_pos_bound; lia).
  assert (Rt : 0 <= adc_sample 0 1 mod 1024 < 1024)
    by (apply Z.mod_pos_bound; lia).
  generalize dependent (adc_sample 2 0 mod 1024). intros b Hb Hin Rb.
  generalize dependent (adc_sample 0 1 mod 1024). intros t Rt Hin.
  assert (E16 : take 2 (drop 16 (payload (messageCount s) b t (tips s)
                                 ++ [lo; hi])) = be16 b) by reflexivity.
  assert (E18 : take 2 (drop 18 (payload (messageCount s) b t (tips s)
                                 ++ [lo; hi])) = be16 t) by reflexivity.
  rewrite E16, E18, !be16_value by lia.
  split; [exact Hin|].
  split; [reflexivity|].
  split; [apply take_app_length'; reflexivity|].
  repeat split; lia.
Qed.

Lemma run_cycles_messageCount (irqs : list (nat -> Z)) :
  forall s : state,
    wrap32 (messageCount (run (map call_main_cycle irqs) s))
    = wrap32 (if 500 <? adc_sample 2 0 mod 1024
              then messageCount s + Z.of_nat (length irqs)
              else messageCount s)
    /\ (0 <= messageCount s < 4294967296 ->
        0 <= messageCount (run (map call_main_cycle irqs) s) < 4294967296).
Proof.
  induction irqs as [|irq irqs IH]; intros s.
  - cbn [map length]. split.
    + destruct (500 <? adc_sample 2 0 mod 1024); f_equal; cbn; lia.
    + intros H. exact H.
  - change (run (map call_main_cycle (irq :: irqs)) s)
      with (run (map call_main_cycle irqs) (main_cycle irq s)).
    destruct (IH (main_cycle irq s)) as [E R].
    destruct (main_cycle_data irq s) as [Em _]. cbn zeta in Em.
    destruct (sample_facts s) as (Sb & _).
    assert (Hbr : transmit_branch (batt (bring_up_and_sample s))
                  = (500 <? adc_sample 2 0 mod 1024)).
    { rewrite Sb. unfold transmit_branch. change BATT_UVLO_ATOD with 500.
      apply Z.gtb_ltb. }
    rewrite Hbr in Em.
    split.
    + rewrite E, Em.
      destruct (500 <? adc_sample 2 0 mod 1024); [|reflexivity].
      unfold wrap32. rewrite Z.add_mod_idemp_l by lia.
      f_equal. cbn [length]. lia.
    + intros H. apply R. rewrite Em.
      destruct (500 <? adc_sample 2 0 mod 1024); [|exact H].
      apply Z.mod_pos_bound. lia.
Qed.

(** X9.  Over any number of consecutive cycles the message count goes up
    by one per cycle (in 32-bit unsigned arithmetic) while the battery
    conversion is above 500, and does not move at all while it is not. *)
Theorem message_count_over_cycles (irqs : list (nat -> Z)) (s : state) :
  0 <= messageCount s < 4294967296 ->
  messageCount (run (map call_main_cycle irqs) s)
  = (if 500 <? adc_sample 2 0 mod 1024
     then wrap32 (messageCount s + Z.of_nat (length irqs))
     else messageCount s).
Proof.
  intros H.
  destruct (run_cycles_messageCount irqs s) as [E R].
  specialize (R H).
  unfold wrap32 in E. rewrite (Z.mod_small _ _ R) in E. rewrite E.
  destruct (500 <? adc_sample 2 0 mod 1024); [reflexivity|].
  apply Z.mod_small, H.
Qed.

(** ** The tip interrupt stays enabled *)

Lemma tip_edge_frame (s : state) :
  regs (tip_edge s) INTCON3bits_INT1E = regs s INTCON3bits_INT1E
  /\ regs (tip_edge s) INTCONbits_GIE = regs s INTCONbits_GIE
  /\ messageCount (tip_edge s) = messageCount s
  /\ txData (tip_edge s) = txData s.
Proof.
  unfold tip_edge, Isr.
  destruct s as [r ab t mc buf b te tr].
  cbn [wr set_regs regs].
  destruct ((<[INTCON3bits_INT1F:=1]> r INTCON3bits_INT1E =? 1)
            && (<[INTCON3bits_INT1F:=1]> r INTCONbits_GIE =? 1));
    [|repeat split].
  destruct (<[INTCON3bits_INT1F:=1]> r INTCON3bits_INT1F =? 1);
    repeat split.
Qed.

Lemma armed_main_cycle (irq : nat -> Z) (s : state) :
  armed (main_cycle irq s).
Proof.
  destruct (main_cycle_spec irq s) as (_ & HE & HG).
  destruct (sample_interrupt_regs s) as (HF & _).
  repeat split; [exact HE | exact HG |].
  rewrite main_cycle_kept by reflexivity. exact HF.
Qed.

Lemma armed_perform (a : action) (s : state) :
  armed s -> armed (perform a s).
Proof.
  intros H. destruct a; cbn [perform].
  - destruct s; exact H.
  - destruct s; repeat split.
  - destruct s; exact H.
  - rewrite readBattery_spec. cbn zeta. cbn [snd]. destruct s; exact H.
  - rewrite readTemperature_spec. cbn zeta. cbn [snd]. destruct s; exact H.
  - unfold armed. rewrite !transmitData_other_regs by discriminate. exact H.
  - destruct (flash_red_led_spec s) as (_ & _ & _ & _ & Fr).
    unfold armed. rewrite !Fr by discriminate. exact H.
  - unfold armed. rewrite !disablePeripherals_keeps by reflexivity. exact H.
  - apply armed_main_cycle.
  - rewrite Isr_idle; [exact H|].
    destruct H as (_ & _ & HF). rewrite HF. discriminate.
  - destruct H as (HE & HG & HF).
    destruct (tip_edge_frame s) as (FE & FG & _).
    destruct (tip_edge_enabled s HE HG) as [_ Hc].
    unfold armed. rewrite FE, FG. repeat split; assumption.
Qed.

Lemma armed_tip_events (acts : list action) :
  forall s : state, armed s -> tip_events acts s = count_edges acts.
Proof.
  induction acts as [|a acts IH]; intros s H; [reflexivity|].
  cbn [tip_events]. rewrite (IH _ (armed_perform a s H)).
  destruct H as (HE & HG & HF).
  destruct a; cbn [qualifying count_edges]; try reflexivity.
  - rewrite HF. reflexivity.
  - rewrite HE, HG. reflexivity.
Qed.

Lemma armed_run (acts : list action) :
  forall s : state, armed s -> armed (run acts s).
Proof.
  induction acts as [|a acts IH]; intros s H; [exact H|].
  change (run (a :: acts) s) with (run acts (perform a s)).
  apply IH, armed_perform, H.
Qed.

(** X8.  The bring-up enables the tip interrupt and no function of the
    program disables it again.  From a state in which it is enabled and
    nothing is pending, over any sequence of calls and tip edges, it is
    still enabled with nothing pending, and the counter has gone up by
    exactly the number of edges (in 32-bit unsigned arithmetic): no edge
    between calls is lost. *)
Theorem no_tip_lost_once_armed (acts : list action) (s : state) :
  armed s ->
  0 <= tips s < 4294967296 ->
  armed (run acts s)
  /\ tips (run acts s) = wrap32 (tips s + count_edges acts)
  /\ (tips s + count_edges acts < 4294967296 ->
      tips (run acts s) = tips s + count_edges acts)
  /\ (forall x : state, armed (configureIO x))
  /\ (forall (irq : nat -> Z) (x : state), armed (main_cycle irq x)).
Proof.
  intros H Ht.
  assert (E : tips (run acts s) = wrap32 (tips s + count_edges acts)).
  { rewrite <- (armed_tip_events acts s H).
    pose proof (run_tips_wrapped acts s) as W.
    pose proof (run_tips_range acts s Ht) as R.
    unfold wrap32 in W at 1. rewrite (Z.mod_small _ _ R) in W. exact W. }
  split; [apply armed_run, H|].
  split; [exact E|].
  split.
  { intros Hlt. rewrite E. unfold wrap32. apply Z.mod_small.
    pose proof (tip_events_nonneg acts s) as Hn.
    rewrite (armed_tip_events acts s H) in Hn. lia. }
  split.
  { intros x. destruct x; repeat split. }
  intros irq x. apply armed_main_cycle.
Qed.

(** X10.  When the battery conversions are above 500, a tip edge that
    arrives between two cycles is reported by the second cycle: its frame
    carries the first frame's tip count plus one and the first frame's
    message count plus one (both in 32-bit unsigned arithmetic). *)
Theorem tip_between_cycles_is_reported
  (irq1 irq2 : nat -> Z) (s : state) :
  length (txData s) = 50%nat ->
  500 < adc_sample 2 0 mod 1024 ->
  let b := adc_sample 2 0 mod 1024 in
  let t := adc_sample 0 1 mod 1024 in
  let f1 := txData (main_cycle irq1 s) in
  let f2 := txData (main_cycle irq2 (tip_edge (main_cycle irq1 s))) in
  take 48 f1 = payload (messageCount s) b t (tips s)
  /\ take 48 f2 = payload (wrap32 (messageCount s + 1)) b t
                    (wrap32 (tips s + 1))
  /\ In (LoRaTXData f2 50)
        (trace (main_cycle irq2 (tip_edge (main_cycle irq1 s)))).
Proof.
  intros Hlen Hb b t f1 f2.
  destruct (cycle_frame irq1 s Hlen Hb) as (lo1 & hi1 & E1 & M1 & _).
  set (s1 := main_cycle irq1 s) in *.
  destruct (armed_main_cycle irq1 s) as (HE & HG & _). fold s1 in HE, HG.
  destruct (tip_edge_enabled s1 HE HG) as [T1 _].
  destruct (tip_edge_frame s1) as (_ & _ & Fm & Fx).
  destruct (main_cycle_spec irq1 s) as (Tt & _). fold s1 in Tt.
  assert (Hlen2 : length (txData (tip_edge s1)) = 50%nat).
  { rewrite Fx, E1. reflexivity. }
  destruct (cycle_frame irq2 (tip_edge s1) Hlen2 Hb)
    as (lo2 & hi2 & E2 & _ & Hin).
  rewrite Fm, M1, T1, Tt in E2.
  unfold f1, f2. fold b t in E1, E2.
  split; [rewrite E1; apply take_app_length'; reflexivity|].
  split; [rewrite E2; apply take_app_length'; reflexivity|].
  exact Hin.
Qed.

(** ** The red LED *)

Lemma decide_transmit_LATE (irq : nat -> Z) (s : state) :
  regs (decide_transmit irq s) LATE
  = Z.clearbit (Z.setbit (regs s LATE) 2) 2
  \/ regs (decide_transmit irq s) LATE
     = Z.clearbit (Z.setbit (Z.clearbit (Z.setbit (Z.clearbit
         (Z.setbit (regs s LATE) 2) 2) 2) 2) 2) 2.
Proof.
  unfold decide_transmit. destruct (transmit_branch (batt s)).
  - left. rewrite transmitData_regs. destruct s; reflexivity.
  - right. destruct s; reflexivity.
Qed.

(** X13.  Whichever branch the decision takes, it ends with the red LED
    (bit 2 of [LATE]) off, also when the interrupt handler had lit it,
    and with every other bit of [LATE] as it found it. *)
Theorem decision_leaves_LED_off (irq : nat -> Z) (s : state) (n : Z) :
  Z.testbit (regs (decide_transmit irq s) LATE) 2 = false
  /\ Z.testbit (regs (decide_transmit irq (Isr s)) LATE) 2 = false
  /\ (n <> 2 ->
      Z.testbit (regs (decide_transmit irq s) LATE) n
      = Z.testbit (regs s LATE) n).
Proof.
  assert (G : forall x : state,
             Z.testbit (regs (decide_transmit irq x) LATE) 2 = false).
  { intros x. destruct (decide_transmit_LATE irq x) as [E | E]; rewrite E;
      rewrite Z.clearbit_eqb; cbn [Z.eqb Pos.eqb negb];
      apply andb_false_r. }
  split; [apply G|]. split; [apply G|].
  intros Hn.
  assert (Hf : (2 =? n) = false) by (apply Z.eqb_neq; lia).
  destruct (decide_transmit_LATE irq s) as [E | E]; rewrite E;
    repeat (first [ rewrite Z.clearbit_eqb
                  | rewrite Z.setbit_eqb by lia ];
            rewrite Hf; cbn [negb orb]; rewrite ?andb_true_r);
    reflexivity.
Qed.

End Proofs.

(** * Concrete runs *)

Lemma sum_crc_respects_length : respects_length sum_crc.
Proof. intros b1 b2 n H. unfold sum_crc. rewrite H. reflexivity. Qed.

(** C1, counterexample.  A reading of exactly 500 does not transmit: the
    decision runs the blink branch. *)
Lemma threshold_reading_skips :
  batt at_threshold = BATT_UVLO_ATOD
  /\ transmit_branch (batt at_threshold) = false
  /\ decide_transmit sum_crc never_done at_threshold
     = flash_red_led at_threshold
  /\ ~ (forall b : Z, transmit_branch b = true <-> BATT_UVLO_ATOD <= b).
Proof.
  split; [reflexivity|]. split; [reflexivity|]. split; [reflexivity|].
  intros H. specialize (H 500). destruct H as [_ H].
  assert (E : transmit_branch 500 = true) by (apply H; reflexivity).
  discriminate E.
Qed.

Lemma transmit_iff_above_threshold_witness :
  transmit_branch (batt scenario) = true /\ 500 < batt scenario.
Proof.
  destruct (transmit_iff_above_threshold sum_crc never_done scenario)
    as (_ & H & _).
  assert (L : 500 < batt scenario) by (cbn; lia).
  split; [apply H; exact L | exact L].
Defined.

Lemma frame_layout_witness :
  length (txData scenario) = 50%nat
  /\ take 4 (drop 12 (txData (transmitData sum_crc never_done scenario)))
     = [0; 0; 0; 7]
  /\ take 48 (txData (transmitData sum_crc never_done scenario)) =
     [50; 0x00; 0x01; 0xE6; 0xBA; 0x08; 0xFB; 0x3A; 0x4F; 0x5E; 0xCE; 0x08;
      0x00; 0x00; 0x00; 0x07; 0x02; 0x58; 0x01; 0xC2; 0; 0; 0; 0;
      0x00; 0x00; 0x00; 0x03;
      0; 0; 0; 0; 0; 0; 0; 0; 0; 0; 0; 0; 0; 0; 0; 0; 0; 0; 0; 0].
Proof.
  split; [reflexivity|].
  destruct (frame_layout sum_crc never_done scenario)
    as (_ & _ & _ & _ & H12 & _ & _ & _ & _ & _ & _ & _ & _ & _ & H).
  - reflexivity.
  - cbn; lia.
  - cbn; lia.
  - cbn; lia.
  - cbn; lia.
  - split; [exact H12|]. apply H; reflexivity.
Defined.

Lemma checksum_placement_witness :
  length (txData scenario) = 50%nat
  /\ txData (transmitData sum_crc never_done scenario) !! 48%nat = Some 186
  /\ txData (transmitData sum_crc never_done scenario) !! 49%nat = Some 5
  /\ calcCRC sum_crc (fill_frame scenario) = 1466.
Proof.
  split; [reflexivity|].
  destruct (checksum_placement sum_crc never_done scenario eq_refl)
    as (Hc & _ & _ & H48 & H49 & _).
  split; [exact H48|]. split; [exact H49|]. exact Hc.
Defined.

Lemma poll_timeout_witness :
  (forall j : nat, (j < 50)%nat -> wrap8 (never_done j) = 0)
  /\ count_polls (drop (length (trace scenario))
                    (trace (transmitData sum_crc never_done scenario)))
     = 50%nat
  /\ messageCount (transmitData sum_crc never_done scenario) = 8
  /\ messageCount (transmitData sum_crc (done_at 3) scenario) = 8.
Proof.
  assert (Hz : forall j : nat, (j < 50)%nat -> wrap8 (never_done j) = 0)
    by (intros j _; reflexivity).
  split; [exact Hz|].
  destruct (poll_timeout sum_crc never_done scenario Hz)
    as (_ & Hn & _ & Hm & _ & Hd).
  split; [exact Hn|]. split; [exact Hm|].
  destruct (Hd (done_at 3) 3%nat) as [_ Hm'].
  - lia.
  - intros i Hi. unfold done_at.
    destruct (Nat.eqb_spec i 3); [lia | reflexivity].
  - discriminate.
  - rewrite Hm'. exact Hm.
Defined.

(** C5, counterexample.  After the bring-down RA2 and RD3 drive high and
    RD1 is an input, so not every pin other than RB1 is an output driving
    low. *)
Lemma quiesce_not_all_low :
  output_low (disablePeripherals scenario) port_A 2 = false
  /\ output_high (disablePeripherals scenario) port_A 2 = true
  /\ output_high (disablePeripherals scenario) port_D 3 = true
  /\ is_input (disablePeripherals scenario) port_D 1 = true
  /\ ~ (forall (p : port) (n : Z),
          0 <= n < 8 -> (p, n) <> RB1 ->
          output_low (disablePeripherals scenario) p n = true).
Proof.
  do 4 (split; [reflexivity|]).
  intros H. specialize (H port_A 2).
  assert (E : output_low (disablePeripherals scenario) port_A 2 = true).
  { apply H; [lia | discriminate]. }
  discriminate E.
Qed.

Lemma quiesce_pins_witness :
  0 <= 5 < 8
  /\ output_low (disablePeripherals scenario) port_C 5 = true
  /\ is_input (disablePeripherals scenario) port_B 1 = true
  /\ tips (tip_edge (main_cycle bench_adc 0 sum_crc never_done scenario)) = 4.
Proof.
  assert (Hn : 0 <= 5 < 8) by lia.
  split; [exact Hn|].
  destruct (quiesce_pins bench_adc 0 sum_crc never_done scenario port_C 5 Hn)
    as (Hl & Hb & _ & _ & _ & _ & _ & _ & _ & Ht).
  split; [apply Hl; discriminate|].
  split; [exact Hb | exact Ht].
Defined.

(** C6, counterexample.  Called while channel 1 is selected,
    [readBattery] leaves channel 1 selected and returns the conversion of
    that channel. *)
Lemma readBattery_keeps_channel :
  regs after_temperature ADCON0bits_CHS = 1
  /\ regs (snd (readBattery bench_adc 0 after_temperature)) ADCON0bits_CHS = 1
  /\ fst (readBattery bench_adc 0 after_temperature) = bench_adc 2 1
  /\ bench_adc 2 1 <> bench_adc 2 0
  /\ ~ (forall s : state,
          regs (snd (readBattery bench_adc 0 s)) ADCON0bits_CHS = 0).
Proof.
  split; [reflexivity|]. split; [reflexivity|]. split; [reflexivity|].
  split; [discriminate|].
  intros H. specialize (H after_temperature). discriminate H.
Qed.

Lemma sampler_contract_witness :
  regs (setupAtoD scenario) ADCON2bits_ADFM = 1
  /\ fst (readBattery bench_adc 0 (setupAtoD scenario)) = 600
  /\ fst (readTemperature bench_adc 0 (setupAtoD scenario)) = 450.
Proof.
  assert (HF : regs (setupAtoD scenario) ADCON2bits_ADFM = 1)
    by reflexivity.
  split; [exact HF|].
  destruct (sampler_contract bench_adc 0 (setupAtoD scenario))
    as (_ & _ & _ & _ & _ & _ & Hb & _ & _ & _ & _ & _ & _ & Ht & _).
  split; [rewrite (Hb HF) | rewrite (Ht HF)]; reflexivity.
Defined.

Lemma undervoltage_skips_witness :
  batt (bring_up_and_sample weak_adc 0 scenario) < BATT_UVLO_ATOD
  /\ messageCount (main_cycle weak_adc 0 sum_crc never_done scenario) = 7
  /\ txData (main_cycle weak_adc 0 sum_crc never_done scenario)
     = repeat 0xAA 50
  /\ trace (main_cycle weak_adc 0 sum_crc never_done scenario)
     = [USART2_Start; delay_ms 5] ++ blink_pattern ++ [SLEEP].
Proof.
  assert (Hb : batt (bring_up_and_sample weak_adc 0 scenario)
               < BATT_UVLO_ATOD) by (vm_compute; reflexivity).
  split; [exact Hb|].
  destruct (undervoltage_skips weak_adc 0 sum_crc never_done scenario Hb)
    as (_ & Htr & _ & Hm & Hx & _).
  split; [exact Hm|]. split; [exact Hx | exact Htr].
Defined.

Lemma tip_counter_invariant_witness :
  0 <= tips scenario < 4294967296
  /\ tip_events bench_adc 0 sum_crc two_cycles_one_tip scenario = 1
  /\ tips (run bench_adc 0 sum_crc two_cycles_one_tip scenario) = 4.
Proof.
  assert (Hr : 0 <= tips scenario < 4294967296) by (cbn; lia).
  split; [exact Hr|].
  assert (He : tip_events bench_adc 0 sum_crc two_cycles_one_tip scenario = 1)
    by (vm_compute; reflexivity).
  split; [exact He|].
  destruct (tip_counter_invariant bench_adc 0 sum_crc)
    as (_ & _ & _ & _ & _ & H).
  destruct (H two_cycles_one_tip scenario) as [E _].
  - cbn; lia.
  - rewrite He. cbn; lia.
  - rewrite E, He. reflexivity.
Defined.

Lemma frame_deterministic_witness :
  respects_length sum_crc
  /\ txData scenario <> txData scenario_again
  /\ txData (transmitData sum_crc never_done scenario)
     = txData (transmitData sum_crc (done_at 3) scenario_again).
Proof.
  split; [exact sum_crc_respects_length|].
  split; [discriminate|].
  exact (proj1 (proj2
    (frame_deterministic sum_crc never_done (done_at 3)
       scenario scenario_again sum_crc_respects_length
       eq_refl eq_refl eq_refl eq_refl eq_refl eq_refl))).
Defined.

Lemma Isr_effects_witness :
  regs (wr INTCON3bits_INT1F 1 scenario) INTCON3bits_INT1F = 1
  /\ tips (Isr (wr INTCON3bits_INT1F 1 scenario)) = 4
  /\ Z.testbit (regs (Isr (wr INTCON3bits_INT1F 1 scenario)) LATE) 2 = true
  /\ Isr scenario = scenario.
Proof.
  assert (H1 : regs (wr INTCON3bits_INT1F 1 scenario) INTCON3bits_INT1F = 1)
    by reflexivity.
  split; [exact H1|].
  destruct (Isr_effects (wr INTCON3bits_INT1F 1 scenario)) as [Hf _].
  destruct (Hf H1) as (HL & _ & Ht & _).
  split; [exact Ht|]. split; [exact HL|].
  destruct (Isr_effects scenario) as [_ Hi].
  apply Hi. discriminate.
Defined.

(** * Concrete runs of whole cycles *)


Lemma cycle_fixes_registers_witness :
  regs scenario TRISC <> regs scenario_again TRISC
  /\ regs (main_cycle bench_adc 0 sum_crc never_done scenario) TRISC
     = regs (main_cycle bench_adc 0 sum_crc (done_at 3) scenario_again) TRISC.
Proof.
  split; [discriminate|].
  destruct (cycle_fixes_registers bench_adc 0 sum_crc never_done (done_at 3)
              scenario scenario_again TRISC) as [H _].
  apply H. discriminate.
Defined.

Lemma radio_asleep_at_SLEEP_witness :
  transmit_branch (batt (bring_up_and_sample bench_adc 0 scenario)) = true
  /\ last (LoRa_events
             (drop (length (trace scenario))
                (trace (main_cycle bench_adc 0 sum_crc (done_at 3)
                          scenario))))
     = Some LoRaSleepMode.
Proof.
  assert (H : transmit_branch
                (batt (bring_up_and_sample bench_adc 0 scenario)) = true)
    by (vm_compute; reflexivity).
  split; [exact H|].
  destruct (radio_asleep_at_SLEEP bench_adc 0 sum_crc (done_at 3) scenario)
    as (_ & _ & Ht).
  destruct (Ht H) as [Hl _]. exact Hl.
Defined.

Lemma cycle_delay_witness :
  transmit_branch (batt (bring_up_and_sample weak_adc 0 scenario)) = false
  /\ total_delay
       (drop (length (trace scenario))
          (trace (main_cycle weak_adc 0 sum_crc never_done scenario)))
     = 1805.
Proof.
  assert (H : transmit_branch
                (batt (bring_up_and_sample weak_adc 0 scenario)) = false)
    by (vm_compute; reflexivity).
  split; [exact H|].
  destruct (cycle_delay weak_adc 0 sum_crc never_done scenario) as [Hs _].
  exact (Hs H).
Defined.

Lemma frame_holds_bytes_witness :
  length (txData scenario) = 50%nat
  /\ Forall (fun b => 0 <= b < 256)
       (txData (transmitData sum_crc never_done scenario)).
Proof.
  split; [reflexivity|].
  exact (frame_holds_bytes sum_crc never_done scenario eq_refl).
Defined.

Lemma frame_reports_cycle_readings_witness :
  length (txData scenario) = 50%nat
  /\ 500 < bench_adc 2 0 mod 1024
  /\ be_value (take 2 (drop 16
       (txData (main_cycle bench_adc 0 sum_crc never_done scenario))))
     = 600.
Proof.
  assert (Hb : 500 < bench_adc 2 0 mod 1024) by (vm_compute; reflexivity).
  split; [reflexivity|]. split; [exact Hb|].
  destruct (frame_reports_cycle_readings bench_adc 0 sum_crc never_done
              scenario eq_refl Hb) as (_ & _ & _ & H & _).
  exact H.
Defined.

Lemma message_count_over_cycles_witness :
  0 <= messageCount scenario < 4294967296
  /\ messageCount
       (run bench_adc 0 sum_crc
          (map call_main_cycle [never_done; done_at 3; never_done])
          scenario)
     = 10.
Proof.
  assert (H : 0 <= messageCount scenario < 4294967296) by (cbn; lia).
  split; [exact H|].
  rewrite (message_count_over_cycles bench_adc 0 sum_crc
             [never_done; done_at 3; never_done] scenario H).
  reflexivity.
Defined.

Lemma no_tip_lost_once_armed_witness :
  armed after_one_cycle
  /\ 0 <= tips after_one_cycle < 4294967296
  /\ tips (run bench_adc 0 sum_crc
             [edge; call_main_cycle never_done; edge] after_one_cycle)
     = 5.
Proof.
  assert (Ha : armed after_one_cycle) by (repeat split).
  assert (Ht : 0 <= tips after_one_cycle < 4294967296)
    by (vm_compute; split; [discriminate | reflexivity]).
  split; [exact Ha|]. split; [exact Ht|].
  destruct (no_tip_lost_once_armed bench_adc 0 sum_crc
              [edge; call_main_cycle never_done; edge] after_one_cycle
              Ha Ht) as (_ & E & _).
  rewrite E. reflexivity.
Defined.

Lemma tip_between_cycles_is_reported_witness :
  length (txData scenario) = 50%nat
  /\ 500 < bench_adc 2 0 mod 1024
  /\ take 48
       (txData (main_cycle bench_adc 0 sum_crc (done_at 3)
                  (tip_edge (main_cycle bench_adc 0 sum_crc never_done
                               scenario))))
     = payload 8 600 450 4.
Proof.
  assert (Hb : 500 < bench_adc 2 0 mod 1024) by (vm_compute; reflexivity).
  split; [reflexivity|]. split; [exact Hb|].
  destruct (tip_between_cycles_is_reported bench_adc 0 sum_crc never_done
              (done_at 3) scenario eq_refl Hb) as (_ & H2 & _).
  exact H2.
Defined.

Lemma bring_up_pins_witness :
  0 <= 5 < 8
  /\ is_input (setupAtoD (configureIO scenario_again)) port_C 5
     = is_input scenario_again port_C 5
  /\ is_input (setupAtoD (configureIO scenario_again)) port_B 1 = true.
Proof.
  assert (Hn : 0 <= 5 < 8) by lia.
  split; [exact Hn|].
  destruct (bring_up_pins scenario_again port_C 5 Hn)
    as (_ & _ & HB & _ & _ & _ & Hk & _).
  split; [apply Hk; discriminate | exact HB].
Defined.

Lemma decision_leaves_LED_off_witness :
  3 <> 2
  /\ Z.testbit (regs (decide_transmit sum_crc never_done scenario_again)
                  LATE) 3
     = Z.testbit (regs scenario_again LATE) 3.
Proof.
  assert (Hn : 3 <> 2) by discriminate.
  split; [exact Hn|].
  destruct (decision_leaves_LED_off sum_crc never_done scenario_again 3)
    as (_ & _ & H).
  exact (H Hn).
Defined.
